(** * Langflow wrapper components: Tavily search, DataFrame parsing, HTML links

    A shallow embedding of four component files of the Langflow package

    - [components/tools/tavily.py]            ([Tavily])
    - [components/tools/tavily_search.py]     ([TavilySearch])
    - [components/processing/parse_dataframe.py] ([ParseDataFrame])
    - [components/langchain_utilities/html_link_extractor.py] ([HtmlLinkExtractor])

    together with the fragment of Python (values, [str], [repr], [str.format],
    exceptions) and of [httpx] that these files rely on.  Component methods
    are computations in a state-and-exception monad whose state holds the
    component's mutable [status] attribute, the log sink and the network. *)

From Stdlib Require Import String Ascii List ZArith Bool Lia DecimalString.
Import ListNotations.

Set Warnings "-register-all".

Open Scope string_scope.
Open Scope Z_scope.

(** ** Enumerations of [tavily_search.py]

    They come first because their members are Python objects, and so belong
    to the universe of values below. *)

Inductive TavilySearchDepth : Type :=
| BASIC
| ADVANCED.

Inductive TavilySearchTopic : Type :=
| GENERAL
| NEWS.

(** ** Python values *)

Module Py.

(** The objects the components handle: what a JSON document decodes to,
    plus the members of the two enumerations.  A [float] is represented by
    its [repr] (its shortest round-tripping decimal form), which determines
    it; a [dict] is the list of its items in insertion order. *)
Inductive pyval : Type :=
| VNone
| VBool (b : bool)
| VInt (n : Z)
| VFloat (repr : string)
| VStr (s : string)
| VList (items : list pyval)
| VDict (items : list (string * pyval))
| VDepth (d : TavilySearchDepth)
| VTopic (t : TavilySearchTopic).

Definition dict : Type := list (string * pyval).

(** [type(v).__name__] *)
Definition type_name (v : pyval) : string :=
  match v with
  | VNone => "NoneType"
  | VBool _ => "bool"
  | VInt _ => "int"
  | VFloat _ => "float"
  | VStr _ => "str"
  | VList _ => "list"
  | VDict _ => "dict"
  | VDepth _ => "TavilySearchDepth"
  | VTopic _ => "TavilySearchTopic"
  end.

(** [bool(v)]: what [if v] and [a and b] test. *)
Definition truthy (v : pyval) : bool :=
  match v with
  | VNone => false
  | VBool b => b
  | VInt n => negb (n =? 0)
  | VFloat r => negb (String.eqb r "0.0" || String.eqb r "-0.0")
  | VStr s => negb (String.eqb s EmptyString)
  | VList l => match l with [] => false | _ => true end
  | VDict d => match d with [] => false | _ => true end
  | VDepth _ => true
  | VTopic _ => true
  end.

(** *** Dictionaries *)

Fixpoint dict_get {A : Type} (d : list (string * A)) (k : string) : option A :=
  match d with
  | [] => None
  | (k', v) :: d' => if String.eqb k' k then Some v else dict_get d' k
  end.

(** [d[k] = v]: replaces the value of an existing key in place, appends a
    new key at the end. *)
Fixpoint dict_set {A : Type} (d : list (string * A)) (k : string) (v : A)
  : list (string * A) :=
  match d with
  | [] => [(k, v)]
  | (k', v') :: d' =>
      if String.eqb k' k then (k', v) :: d' else (k', v') :: dict_set d' k v
  end.

(** *** Strings *)

Definition dquote : ascii := "034"%char.
Definition squote : ascii := "039"%char.
Definition backslash : ascii := "092"%char.

Definition str_of_char (c : ascii) : string := String c EmptyString.

Fixpoint contains_char (c : ascii) (s : string) : bool :=
  match s with
  | EmptyString => false
  | String c' s' => Ascii.eqb c c' || contains_char c s'
  end.

(** [str.lower] on the ASCII letters.  Strings are byte strings (UTF-8);
    bytes outside ASCII are left alone. *)
Definition lower_char (c : ascii) : ascii :=
  let n := nat_of_ascii c in
  if (Nat.leb 65 n && Nat.leb n 90)%bool then ascii_of_nat (n + 32) else c.

Fixpoint lower (s : string) : string :=
  match s with
  | EmptyString => EmptyString
  | String c s' => String (lower_char c) (lower s')
  end.

(** [str(n)] for an [int]. *)
Definition int_str (n : Z) : string := NilZero.string_of_int (Z.to_int n).

Definition hex_digit (n : nat) : ascii :=
  if Nat.ltb n 10 then ascii_of_nat (48 + n) else ascii_of_nat (87 + n).

(** [repr] of a [str]: single quotes unless the text has a single quote and
    no double quote; backslash, the chosen quote and the control characters
    escaped. *)
Definition repr_quote (s : string) : ascii :=
  if (contains_char squote s && negb (contains_char dquote s))%bool
  then dquote else squote.

Definition repr_char (q c : ascii) : string :=
  let n := nat_of_ascii c in
  if Ascii.eqb c backslash then String backslash (str_of_char backslash)
  else if Ascii.eqb c q then String backslash (str_of_char q)
  else if Nat.eqb n 10 then String backslash "n"
  else if Nat.eqb n 13 then String backslash "r"
  else if Nat.eqb n 9 then String backslash "t"
  else if (Nat.ltb n 32 || Nat.eqb n 127)%bool
       then String backslash
              (String "x" (String (hex_digit (Nat.div n 16))
                                  (str_of_char (hex_digit (Nat.modulo n 16)))))
  else str_of_char c.

Fixpoint repr_chars (q : ascii) (s : string) : string :=
  match s with
  | EmptyString => EmptyString
  | String c s' => repr_char q c ++ repr_chars q s'
  end.

Definition repr_str (s : string) : string :=
  let q := repr_quote s in
  String q (repr_chars q s ++ str_of_char q).

Definition depth_name (d : TavilySearchDepth) : string :=
  match d with BASIC => "BASIC" | ADVANCED => "ADVANCED" end.

Definition topic_name (t : TavilySearchTopic) : string :=
  match t with GENERAL => "GENERAL" | NEWS => "NEWS" end.

(** The [.value] of an enumeration member. *)
Definition depth_value (d : TavilySearchDepth) : string :=
  match d with BASIC => "basic" | ADVANCED => "advanced" end.

Definition topic_value (t : TavilySearchTopic) : string :=
  match t with GENERAL => "general" | NEWS => "news" end.

(** [repr(v)] *)
Fixpoint repr (v : pyval) : string :=
  match v with
  | VNone => "None"
  | VBool true => "True"
  | VBool false => "False"
  | VInt n => int_str n
  | VFloat r => r
  | VStr s => repr_str s
  | VList l => "[" ++ String.concat ", " (map repr l) ++ "]"
  | VDict d =>
      "{" ++ String.concat ", "
               (map (fun kv => repr_str (fst kv) ++ ": " ++ repr (snd kv)) d)
          ++ "}"
  | VDepth d =>
      "<TavilySearchDepth." ++ depth_name d ++ ": "
        ++ repr_str (depth_value d) ++ ">"
  | VTopic t =>
      "<TavilySearchTopic." ++ topic_name t ++ ": "
        ++ repr_str (topic_value t) ++ ">"
  end.

(** [str(v)], which is also [format(v, EmptyString)] and what an f-string field
    without conversion shows. *)
Definition str (v : pyval) : string :=
  match v with
  | VStr s => s
  | VDepth d => "TavilySearchDepth." ++ depth_name d
  | VTopic t => "TavilySearchTopic." ++ topic_name t
  | _ => repr v
  end.

(** *** Exceptions *)

(** An [httpx.Response], as far as the components look at it: the status
    code, the body text, what [response.json()] gives (the decoded document,
    or the message of the [json.JSONDecodeError], a [ValueError], raised for
    a body that is not JSON), and the message [httpx] puts in the
    [HTTPStatusError] it raises for the response.  A decoder that gives up
    on a valid body (a [RecursionError] on very deep nesting) is not
    represented. *)
Record response : Type := Build_response {
  status_code : Z;
  text : string;
  json_body : string + pyval;
  status_error_message : string
}.

(** The exception classes that occur.  [RequestError] stands for
    [httpx.RequestError] and its subclasses (transport errors, timeouts);
    [ValueError] includes [json.JSONDecodeError]. *)
Inductive exn : Type :=
| HTTPStatusError (message : string) (r : response)
| RequestError (message : string)
| ValueError (message : string)
| TypeError (message : string)
| AttributeError (message : string)
| KeyError (key : string)
| IndexError (message : string)
| ToolException (message : string).

(** [str(e)] *)
Definition exn_str (e : exn) : string :=
  match e with
  | HTTPStatusError m _ => m
  | RequestError m => m
  | ValueError m => m
  | TypeError m => m
  | AttributeError m => m
  | KeyError k => repr_str k
  | IndexError m => m
  | ToolException m => m
  end.

Inductive result (A : Type) : Type :=
| Return (a : A)
| Raise (e : exn).

Arguments Return {A} a.
Arguments Raise {A} e.

(** *** Operations on objects that can raise *)

(** [v.get(k, default)] *)
Definition get (v : pyval) (k : string) (default : pyval) : result pyval :=
  match v with
  | VDict d => Return (match dict_get d k with Some x => x | None => default end)
  | _ => Raise (AttributeError
                  ("'" ++ type_name v ++ "' object has no attribute 'get'"))
  end.

(** [v[k]] for a string [k] *)
Definition getitem (v : pyval) (k : string) : result pyval :=
  match v with
  | VDict d => match dict_get d k with
               | Some x => Return x
               | None => Raise (KeyError k)
               end
  | VList _ => Raise (TypeError "list indices must be integers or slices, not str")
  | VStr _ => Raise (TypeError "string indices must be integers, not 'str'")
  | _ => Raise (TypeError ("'" ++ type_name v ++ "' object is not subscriptable"))
  end.

Fixpoint chars (s : string) : list pyval :=
  match s with
  | EmptyString => []
  | String c s' => VStr (str_of_char c) :: chars s'
  end.

(** The items a [for] loop over [v] visits: the elements of a list, the keys
    of a dict, the characters of a string (its bytes, here). *)
Definition iter (v : pyval) : result (list pyval) :=
  match v with
  | VList l => Return l
  | VDict d => Return (map (fun kv => VStr (fst kv)) d)
  | VStr s => Return (chars s)
  | _ => Raise (TypeError ("'" ++ type_name v ++ "' object is not iterable"))
  end.

(** *** [str.format]

    [template.format], called with keyword arguments only ([kwargs]).  The
    scan follows the interpreter: literal text, doubled braces, and
    replacement fields.  A field that is a plain keyword name is looked up
    and shown with [str].  From the first field that uses positional
    numbering, attribute or index access, a conversion or a format
    specification on, the rendering of the rest of the template is left to
    [format_ext], which stands for the interpreter on that suffix; so is
    it from a field whose name may be a number in another script. *)

Inductive format_mode : Type :=
| Literal
| ClosingBrace
| Field (start : string) (name : string) (fresh : bool).

Definition prepend (x : string) (r : result string) : result string :=
  match r with
  | Return t => Return (x ++ t)
  | Raise e => Raise e
  end.

(** Whether a field name may be a positional index: it is one when all
    its characters are decimal digits, of any script.  On the bytes of
    the name this can be ruled out only by an ASCII character that is not
    a digit. *)
Fixpoint index_like (s : string) : bool :=
  match s with
  | EmptyString => true
  | String c s' =>
      let n := nat_of_ascii c in
      ((Nat.leb 48 n && Nat.leb n 57) || Nat.leb 128 n)%bool
      && index_like s'
  end.

Section Format.

Variable format_ext : string -> dict -> result string.

Fixpoint format_scan (m : format_mode) (s : string) (kwargs : dict)
  : result string :=
  match s with
  | EmptyString =>
      match m with
      | Literal => Return EmptyString
      | ClosingBrace =>
          Raise (ValueError "Single '}' encountered in format string")
      | Field _ _ true =>
          Raise (ValueError "Single '{' encountered in format string")
      | Field _ _ false =>
          Raise (ValueError "expected '}' before end of string")
      end
  | String c s' =>
      match m with
      | Literal =>
          if Ascii.eqb c "{" then format_scan (Field s EmptyString true) s' kwargs
          else if Ascii.eqb c "}" then format_scan ClosingBrace s' kwargs
          else prepend (str_of_char c) (format_scan Literal s' kwargs)
      | ClosingBrace =>
          if Ascii.eqb c "}" then prepend "}" (format_scan Literal s' kwargs)
          else Raise (ValueError "Single '}' encountered in format string")
      | Field start name fresh =>
          if (fresh && Ascii.eqb c "{")%bool
          then prepend "{" (format_scan Literal s' kwargs)
          else if Ascii.eqb c "{"
          then Raise (ValueError "unexpected '{' in field name")
          else if Ascii.eqb c "}" then
            if String.eqb name EmptyString
            then Raise (IndexError
              "Replacement index 0 out of range for positional args tuple")
            else if index_like name then format_ext start kwargs
            else match dict_get kwargs name with
                 | None => Raise (KeyError name)
                 | Some v => prepend (str v) (format_scan Literal s' kwargs)
                 end
          else if (Ascii.eqb c "." || Ascii.eqb c "[" ||
                   Ascii.eqb c "!" || Ascii.eqb c ":")%bool
          then format_ext start kwargs
          else format_scan (Field start (name ++ str_of_char c) false) s' kwargs
      end
  end.

Definition format (template : string) (kwargs : dict) : result string :=
  format_scan Literal template kwargs.

End Format.

(** An instance of [format_ext] for templates whose fields are all plain
    keyword names, where it is never reached. *)
Definition plain_fields_only (_ : string) (_ : dict) : result string :=
  Raise (ValueError "extended replacement field").

End Py.

(** ** The host's containers *)

Module Schema.

Import Py.

(** Modelled from the spec: the host's record type [Data] ([langflow.schema],
    not among the sources), the generic key-value container that carries
    structured results between components.  The sources build a record from
    the keyword arguments [text] and [data]; it holds the [text] it was
    given, if any, and the [data] dictionary. *)
Record Data : Type := Build_Data {
  text : option pyval;
  data : dict
}.

(** Modelled from the spec: the host's [Message] ([langflow.schema.message],
    not among the sources), a single text message. *)
Record Message : Type := Build_Message {
  message_text : string
}.

(** The keys a template can name in a record: the entries of [data], and
    [text]. *)
Definition record_fields (r : Data) : dict :=
  match text r with
  | Some t => (data r ++ [("text", t)])%list
  | None => data r
  end.

Fixpoint format_all (format_ext : string -> dict -> result string)
    (template : string) (rows : list dict) : result (list string) :=
  match rows with
  | [] => Return []
  | row :: rows' =>
      match format format_ext template row with
      | Raise e => Raise e
      | Return line =>
          match format_all format_ext template rows' with
          | Raise e => Raise e
          | Return lines => Return (line :: lines)
          end
      end
  end.

(** Modelled from the spec: [data_to_text(template, data)]
    ([langflow.helpers.data], not among the sources), the rendering of a
    list of records as text: the template formatted with the fields of each
    record, one line per record. *)
Definition data_to_text (format_ext : string -> dict -> result string)
    (template : string) (records : list Data) : result string :=
  match format_all format_ext template (map record_fields records) with
  | Raise e => Raise e
  | Return lines => Return (String.concat (str_of_char "010"%char) lines)
  end.

End Schema.

(** ** The part of [httpx] the components use *)

Module Httpx.

Import Py.

(** A [client.post(url, json=..., headers=...)] call. *)
Record request : Type := Build_request {
  url : string;
  json : dict;
  headers : list (string * string)
}.

(** What a POST comes to: an [httpx.RequestError] (no response), or a
    response. *)
Inductive post_outcome : Type :=
| PostFails (message : string)
| PostResponds (r : response).

(** [response.is_success]: a 2xx status. *)
Definition is_success (r : response) : bool :=
  (200 <=? status_code r) && (status_code r <=? 299).

End Httpx.

(** ** Running a component method

    The state a method runs in and may change: the component's [status]
    attribute, the records handed to the logger, the requests sent so far,
    and the network, which answers a request given those sent before it. *)

Module Host.

Import Py Schema Httpx.

Inductive status_value : Type :=
| StatusUnset
| StatusText (s : string)
| StatusData (records : list Data).

Record state : Type := Build_state {
  status : status_value;
  log : list (string * string);
  sent : list request;
  network : list request -> request -> post_outcome
}.

Definition M (A : Type) : Type := state -> result A * state.

Definition ret {A : Type} (a : A) : M A := fun s => (Return a, s).

Definition raise {A : Type} (e : exn) : M A := fun s => (Raise e, s).

Definition bind {A B : Type} (m : M A) (k : A -> M B) : M B :=
  fun s =>
    match m s with
    | (Return a, s') => k a s'
    | (Raise e, s') => (Raise e, s')
    end.

Definition lift {A : Type} (r : result A) : M A := fun s => (r, s).

(** [try: body  except ...: handler  else: orelse].  [handler e] is [None]
    when no [except] clause matches [e], which then propagates. *)
Definition try_except_else {A B : Type} (body : M A)
    (handler : exn -> option (M B)) (orelse : A -> M B) : M B :=
  fun s =>
    match body s with
    | (Return a, s') => orelse a s'
    | (Raise e, s') =>
        match handler e with
        | Some h => h s'
        | None => (Raise e, s')
        end
    end.

Definition try_except {A : Type} (body : M A) (handler : exn -> option (M A))
  : M A :=
  try_except_else body handler ret.

(** [self.status = v] *)
Definition set_status (v : status_value) : M unit :=
  fun s => (Return tt,
            {| status := v; log := log s; sent := sent s; network := network s |}).

(** [logger.<level>(message)] *)
Definition logger (level message : string) : M unit :=
  fun s => (Return tt,
            {| status := status s; log := (log s ++ [(level, message)])%list;
               sent := sent s; network := network s |}).

(** [with httpx.Client() as client: client.post(url, json=payload, headers=headers)] *)
Definition post (u : string) (payload : dict) (hs : list (string * string))
  : M response :=
  fun s =>
    let req := {| url := u; json := payload; headers := hs |} in
    let s' := {| status := status s; log := log s;
                 sent := (sent s ++ [req])%list; network := network s |} in
    match network s (sent s) req with
    | PostFails m => (Raise (RequestError m), s')
    | PostResponds r => (Return r, s')
    end.

(** [response.raise_for_status()] *)
Definition raise_for_status (r : response) : M unit :=
  if is_success r then ret tt
  else raise (HTTPStatusError (status_error_message r) r).

(** [response.json()] *)
Definition response_json (r : response) : M pyval :=
  match json_body r with
  | inl m => raise (ValueError m)
  | inr v => ret v
  end.

(** [for x in xs: acc = body x acc] *)
Fixpoint for_each {A B : Type} (xs : list A) (acc : B) (body : A -> B -> M B)
  : M B :=
  match xs with
  | [] => ret acc
  | x :: xs' => bind (body x acc) (fun acc' => for_each xs' acc' body)
  end.

(** [[f x for x in xs]] *)
Fixpoint comprehension {A B : Type} (f : A -> M B) (xs : list A) : M (list B) :=
  match xs with
  | [] => ret []
  | x :: xs' =>
      bind (f x) (fun y => bind (comprehension f xs') (fun ys => ret (y :: ys)))
  end.

End Host.

Declare Scope py_scope.
Delimit Scope py_scope with py.
Notation "x <- m ;; k" := (Host.bind m (fun x => k))
  (at level 61, m at next level, right associativity) : py_scope.
Notation "m ;;; k" := (Host.bind m (fun _ => k))
  (at level 61, right associativity) : py_scope.

(** ** [components/tools/tavily.py] *)

Module Tavily.

Import Py Schema Httpx Host.
Local Open Scope py_scope.

(** The inputs of the component, as attributes of [self]. *)
Record TavilySearchComponent : Type := Build_TavilySearchComponent {
  api_key : string;
  query : string;
  search_depth : string;
  topic : string;
  time_range : option string;
  max_results : Z;
  include_images : bool;
  include_answer : bool
}.

Definition search_url : string := "https://api.tavily.com/search".

Definition json_headers : list (string * string) :=
  [("content-type", "application/json"); ("accept", "application/json")].

Definition payload (self : TavilySearchComponent) : dict :=
  [("api_key", VStr (api_key self));
   ("query", VStr (query self));
   ("search_depth", VStr (search_depth self));
   ("topic", VStr (topic self));
   ("max_results", VInt (max_results self));
   ("include_images", VBool (include_images self));
   ("include_answer", VBool (include_answer self));
   ("time_range", match time_range self with
                  | Some r => VStr r
                  | None => VNone
                  end)].

(** The body of the loop over the results: one record per result. *)
Definition result_record (result : pyval) (data_results : list Data)
  : M (list Data) :=
  content <- lift (get result "content" (VStr EmptyString)) ;;
  title <- lift (get result "title" VNone) ;;
  u <- lift (get result "url" VNone) ;;
  score <- lift (get result "score" VNone) ;;
  ret (data_results ++
       [ {| text := Some content;
            data := [("title", title); ("url", u);
                     ("content", content); ("score", score)] |} ])%list.

(** The part of the [try] block after the response is decoded: the list
    of records built from the search results. *)
Definition fetch_content_collect (self : TavilySearchComponent)
    (search_results : pyval) : M (list Data) :=
  let data_results : list Data := [] in
  data_results <-
    (if include_answer self then
       answer <- lift (get search_results "answer" VNone) ;;
       if truthy answer then
         answer <- lift (getitem search_results "answer") ;;
         ret (data_results ++ [ {| text := Some answer; data := [] |} ])%list
       else ret data_results
     else ret data_results) ;;
  results <- lift (get search_results "results" (VList [])) ;;
  results <- lift (iter results) ;;
  data_results <- for_each results data_results result_record ;;
  if include_images self then
    images <- lift (get search_results "images" VNone) ;;
    if truthy images then
      images <- lift (getitem search_results "images") ;;
      ret (data_results ++
           [ {| text := Some (VStr "Imagens encontradas");
                data := [("images", images)] |} ])%list
    else ret data_results
  else ret data_results.

(** The request [fetch_content] makes. *)
Definition search_request (self : TavilySearchComponent) : request :=
  {| url := search_url; json := payload self; headers := json_headers |}.

(** The [try] block of [fetch_content]. *)
Definition fetch_content_try (self : TavilySearchComponent) : M (list Data) :=
  response <- post search_url (payload self) json_headers ;;
  raise_for_status response ;;;
  search_results <- response_json response ;;
  fetch_content_collect self search_results.

(** The record an [except] clause returns. *)
Definition error_record (error_message : string) : Data :=
  {| text := Some (VStr error_message);
     data := [("error", VStr error_message)] |}.

Definition http_error_message (r : response) : string :=
  "Erro HTTP ocorrido: " ++ int_str (status_code r) ++ " - " ++ Py.text r.

Definition request_error_message (exc : exn) : string :=
  "Erro de requisição ocorrido: " ++ exn_str exc.

Definition value_error_message (exc : exn) : string :=
  "Formato de resposta inválido: " ++ exn_str exc.

Definition fetch_content_except (exc : exn) : option (M (list Data)) :=
  match exc with
  | HTTPStatusError _ r =>
      Some (let error_message := http_error_message r in
            logger "ERROR" error_message ;;;
            ret [error_record error_message])
  | RequestError _ =>
      Some (let error_message := request_error_message exc in
            logger "ERROR" error_message ;;;
            ret [error_record error_message])
  | ValueError _ =>
      Some (let error_message := value_error_message exc in
            logger "ERROR" error_message ;;;
            ret [error_record error_message])
  | _ => None
  end.

Definition fetch_content (self : TavilySearchComponent) : M (list Data) :=
  try_except_else (fetch_content_try self) fetch_content_except
    (fun data_results =>
       set_status (StatusData data_results) ;;;
       ret data_results).

Definition fetch_content_text (format_ext : string -> dict -> result string)
    (self : TavilySearchComponent) : M Message :=
  data <- fetch_content self ;;
  result_string <- lift (data_to_text format_ext "{text}" data) ;;
  set_status (StatusText result_string) ;;;
  ret {| message_text := result_string |}.

End Tavily.

(** ** [components/tools/tavily_search.py] *)

Module TavilySearch.

Import Py Schema Httpx Host.
Local Open Scope py_scope.

(** [TavilySearchDepth(value)]: the member with that value. *)
Definition TavilySearchDepth_of (value : string) : result TavilySearchDepth :=
  if String.eqb value "basic" then Return BASIC
  else if String.eqb value "advanced" then Return ADVANCED
  else Raise (ValueError (repr_str value ++ " is not a valid TavilySearchDepth")).

(** [TavilySearchTopic(value)] *)
Definition TavilySearchTopic_of (value : string) : result TavilySearchTopic :=
  if String.eqb value "general" then Return GENERAL
  else if String.eqb value "news" then Return NEWS
  else Raise (ValueError (repr_str value ++ " is not a valid TavilySearchTopic")).

(** The inputs of the component.  The two dropdowns hold an enumeration
    member or whatever was supplied in its place. *)
Record TavilySearchToolComponent : Type := Build_TavilySearchToolComponent {
  api_key : string;
  query : string;
  search_depth : pyval;
  topic : pyval;
  max_results : Z;
  include_images : bool;
  include_answer : bool
}.

Definition search_url : string := "https://api.tavily.com/search".

Definition json_headers : list (string * string) :=
  [("content-type", "application/json"); ("accept", "application/json")].

Definition payload (self : TavilySearchToolComponent) (query : string)
    (search_depth : TavilySearchDepth) (topic : TavilySearchTopic)
    (max_results : Z) (include_images include_answer : bool) : dict :=
  [("api_key", VStr (api_key self));
   ("query", VStr query);
   ("search_depth", VStr (depth_value search_depth));
   ("topic", VStr (topic_value topic));
   ("max_results", VInt max_results);
   ("include_images", VBool include_images);
   ("include_answer", VBool include_answer)].

(** The element of the list comprehension. *)
Definition item_record (item : pyval) : M Data :=
  title <- lift (get item "title" VNone) ;;
  u <- lift (get item "url" VNone) ;;
  content <- lift (get item "content" VNone) ;;
  score <- lift (get item "score" VNone) ;;
  ret {| text := None;
         data := [("title", title); ("url", u);
                  ("content", content); ("score", score)] |}.

(** The part of the [try] block after the response is decoded. *)
Definition _tavily_search_collect (include_images include_answer : bool)
    (resultados : pyval) : M (list Data) :=
  results <- lift (get resultados "results" (VList [])) ;;
  results <- lift (iter results) ;;
  data_results <- comprehension item_record results ;;
  data_results <-
    (if include_answer then
       answer <- lift (get resultados "answer" VNone) ;;
       if truthy answer then
         answer <- lift (getitem resultados "answer") ;;
         ret ({| text := None; data := [("answer", answer)] |} :: data_results)
       else ret data_results
     else ret data_results) ;;
  if include_images then
    images <- lift (get resultados "images" VNone) ;;
    if truthy images then
      images <- lift (getitem resultados "images") ;;
      ret (data_results ++
           [ {| text := None; data := [("images", images)] |} ])%list
    else ret data_results
  else ret data_results.

(** The request [_tavily_search] makes. *)
Definition search_request (self : TavilySearchToolComponent) (query : string)
    (search_depth : TavilySearchDepth) (topic : TavilySearchTopic)
    (max_results : Z) (include_images include_answer : bool) : request :=
  {| url := search_url;
     json := payload self query search_depth topic max_results
               include_images include_answer;
     headers := json_headers |}.

(** The [try] block of [_tavily_search], entered once both arguments are
    known to be enumeration members. *)
Definition _tavily_search_try (self : TavilySearchToolComponent)
    (query : string) (search_depth : TavilySearchDepth)
    (topic : TavilySearchTopic) (max_results : Z)
    (include_images include_answer : bool) : M (list Data) :=
  response <-
    post search_url
      (payload self query search_depth topic max_results
         include_images include_answer)
      json_headers ;;
  raise_for_status response ;;;
  resultados <- response_json response ;;
  data_results <-
    _tavily_search_collect include_images include_answer resultados ;;
  set_status (StatusData data_results) ;;;
  ret data_results.

Definition http_error_message (r : response) : string :=
  "Erro HTTP: " ++ int_str (status_code r) ++ " - " ++ Py.text r.

Definition unexpected_error_message (e : exn) : string :=
  "Erro inesperado: " ++ exn_str e.

Definition _tavily_search_except (e : exn) : option (M (list Data)) :=
  match e with
  | HTTPStatusError _ r =>
      Some (let error_message := http_error_message r in
            logger "DEBUG" error_message ;;;
            set_status (StatusText error_message) ;;;
            raise (ToolException error_message))
  | _ =>
      Some (let error_message := unexpected_error_message e in
            logger "DEBUG" "Erro ao executar busca Tavily" ;;;
            set_status (StatusText error_message) ;;;
            raise (ToolException error_message))
  end.

Definition _tavily_search (self : TavilySearchToolComponent) (query : string)
    (search_depth topic : pyval) (max_results : Z)
    (include_images include_answer : bool) : M (list Data) :=
  match search_depth with
  | VDepth depth =>
      match topic with
      | VTopic tp =>
          try_except
            (_tavily_search_try self query depth tp max_results
               include_images include_answer)
            _tavily_search_except
      | _ => raise (TypeError ("Tópico de busca inválido: " ++ str topic))
      end
  | _ =>
      raise (TypeError ("Profundidade de busca inválida: " ++ str search_depth))
  end.

(** The record [run_model] returns for a dropdown value that names no
    member. *)
Definition error_record (error_message : string) : Data :=
  {| text := None; data := [("error", VStr error_message)] |}.

Definition run_model (self : TavilySearchToolComponent) : M (list Data) :=
  search_depth_enum <-
    try_except
      (match search_depth self with
       | VDepth d => ret (inl d)
       | v => d <- lift (TavilySearchDepth_of (lower (str v))) ;; ret (inl d)
       end)
      (fun e =>
         match e with
         | ValueError _ =>
             Some (let error_message :=
                     "Valor de profundidade de busca inválido: " ++ exn_str e in
                   set_status (StatusText error_message) ;;;
                   ret (inr [error_record error_message]))
         | _ => None
         end) ;;
  match search_depth_enum with
  | inr returned => ret returned
  | inl search_depth_enum =>
      topic_enum <-
        try_except
          (match topic self with
           | VTopic t => ret (inl t)
           | v => t <- lift (TavilySearchTopic_of (lower (str v))) ;; ret (inl t)
           end)
          (fun e =>
             match e with
             | ValueError _ =>
                 Some (let error_message :=
                         "Valor de tópico inválido: " ++ exn_str e in
                       set_status (StatusText error_message) ;;;
                       ret (inr [error_record error_message]))
             | _ => None
             end) ;;
      match topic_enum with
      | inr returned => ret returned
      | inl topic_enum =>
          _tavily_search self (query self)
            (VDepth search_depth_enum) (VTopic topic_enum)
            (max_results self) (include_images self) (include_answer self)
      end
  end.

End TavilySearch.

(** ** [components/processing/parse_dataframe.py] *)

Module ParseDataFrame.

Import Py Schema Host.
Local Open Scope py_scope.

(** A DataFrame: its column labels and its rows, each row holding one cell
    per column, as stored. *)
Record DataFrame : Type := Build_DataFrame {
  columns : list string;
  rows : list (list pyval)
}.

(** [row.to_dict()]: column name to value; of two columns with one name
    the later one stays. *)
Definition to_dict (cols : list string) (row : list pyval) : dict :=
  fold_left (fun d kv => dict_set d (fst kv) (snd kv)) (combine cols row) [].

Record ParseDataFrameComponent : Type := Build_ParseDataFrameComponent {
  df : DataFrame;
  template : option string;
  sep : option string
}.

(** [x or default] for a string input that may be [None]. *)
Definition or_default (x : option string) (default : string) : string :=
  match x with
  | None => default
  | Some s => if String.eqb s EmptyString then default else s
  end.

Definition newline : string := str_of_char "010"%char.

Definition _clean_args (self : ParseDataFrameComponent)
  : DataFrame * string * string :=
  let dataframe := df self in
  let template := or_default (template self) "{text}" in
  let sep := or_default (sep self) newline in
  (dataframe, template, sep).

Section ParseData.

(** [row_values dataframe row]: the values of the Series that [iterrows]
    yields for a row of the frame.  pandas builds every such Series from
    one array of the whole frame, so the cells come out in the common
    dtype of the columns: an integer beside a float column comes out as a
    float.  This coercion is pandas's and is left open here. *)
Variable row_values : DataFrame -> list pyval -> list pyval.

Variable format_ext : string -> dict -> result string.

(** [dataframe.iterrows()], without the index labels: one Series per row,
    in row order. *)
Definition iterrows (dataframe : DataFrame) : list (list pyval) :=
  map (row_values dataframe) (rows dataframe).

Definition parse_data (self : ParseDataFrameComponent) : M Message :=
  let '(dataframe, template, sep) := _clean_args self in
  let lines : list string := [] in
  lines <-
    for_each (iterrows dataframe) lines
      (fun row lines =>
         let row_dict := to_dict (columns dataframe) row in
         text_line <- lift (format format_ext template row_dict) ;;
         ret (lines ++ [text_line])%list) ;;
  let result_string := String.concat sep lines in
  set_status (StatusText result_string) ;;;
  ret {| message_text := result_string |}.

End ParseData.

(** An instance of [row_values] for frames in which no two columns differ
    in numeric dtype, where [iterrows] yields the cells as stored. *)
Definition as_stored (_ : DataFrame) (row : list pyval) : list pyval := row.

End ParseDataFrame.

(** ** [components/langchain_utilities/html_link_extractor.py] *)

Module HtmlLinkExtractor.

(** The objects of [langchain_community.graph_vectorstores.extractors] the
    component builds, by their constructor arguments. *)
Record HtmlLinkExtractor : Type := Build_HtmlLinkExtractor {
  extractor_kind : string;
  extractor_drop_fragments : bool
}.

(** A link extractor over documents. *)
Inductive LinkExtractor : Type :=
| as_document_extractor (underlying : HtmlLinkExtractor).

Inductive BaseDocumentTransformer : Type :=
| LinkExtractorTransformer (link_extractors : list LinkExtractor).

Record HtmlLinkExtractorComponent : Type := Build_HtmlLinkExtractorComponent {
  kind : string;
  drop_fragments : bool;
  data_input : Py.pyval
}.

Definition get_data_input (self : HtmlLinkExtractorComponent) : Py.pyval :=
  data_input self.

Definition build_document_transformer (self : HtmlLinkExtractorComponent)
  : BaseDocumentTransformer :=
  LinkExtractorTransformer
    [as_document_extractor
       {| extractor_kind := kind self;
          extractor_drop_fragments := drop_fragments self |}].

End HtmlLinkExtractor.

(** ** Vocabulary of the statements *)

Module Spec.

Import Py Schema Httpx Host.

(** *** Shape of a search response *)

Fixpoint all_dicts (l : list pyval) : option (list dict) :=
  match l with
  | [] => Some []
  | VDict d :: l' => option_map (cons d) (all_dicts l')
  | _ => None
  end.

(** The entries of the ['results'] array of a response object: none when
    the key is absent; undefined unless the value is an array of objects. *)
Definition results_entries (body : dict) : option (list dict) :=
  match dict_get body "results" with
  | None => Some []
  | Some (VList l) => all_dicts l
  | Some _ => None
  end.

(** [entry.get(k, default)] on an object. *)
Definition field (entry : dict) (k : string) (default : pyval) : pyval :=
  match dict_get entry k with
  | Some v => v
  | None => default
  end.

(** The value of an extra ([answer], [images]) that is included: its flag
    is set and the response holds a non-empty value for it. *)
Definition included (flag : bool) (body : dict) (k : string) : option pyval :=
  if flag then
    match dict_get body k with
    | Some v => if truthy v then Some v else None
    | None => None
    end
  else None.

Definition extra (mk : pyval -> Data) (v : option pyval) : list Data :=
  match v with
  | Some x => [mk x]
  | None => []
  end.

Definition count_extra (v : option pyval) : nat :=
  match v with
  | Some _ => 1%nat
  | None => 0%nat
  end.

(** The four fields a result record takes from its entry. *)
Definition holds_entry_fields (r : Data) (entry : dict) (no_content : pyval)
  : Prop :=
  dict_get (data r) "title" = Some (field entry "title" VNone) /\
  dict_get (data r) "url" = Some (field entry "url" VNone) /\
  dict_get (data r) "content" = Some (field entry "content" no_content) /\
  dict_get (data r) "score" = Some (field entry "score" VNone).

(** *** Records of [tavily.py] *)

Definition entry_record (entry : dict) : Data :=
  let content := field entry "content" (VStr EmptyString) in
  {| text := Some content;
     data := [("title", field entry "title" VNone);
              ("url", field entry "url" VNone);
              ("content", content);
              ("score", field entry "score" VNone)] |}.

Definition answer_record (answer : pyval) : Data :=
  {| text := Some answer; data := [] |}.

Definition images_record (images : pyval) : Data :=
  {| text := Some (VStr "Imagens encontradas"); data := [("images", images)] |}.

(** *** Records of [tavily_search.py] *)

Definition tool_entry_record (entry : dict) : Data :=
  {| text := None;
     data := [("title", field entry "title" VNone);
              ("url", field entry "url" VNone);
              ("content", field entry "content" VNone);
              ("score", field entry "score" VNone)] |}.

Definition tool_answer_record (answer : pyval) : Data :=
  {| text := None; data := [("answer", answer)] |}.

Definition tool_images_record (images : pyval) : Data :=
  {| text := None; data := [("images", images)] |}.

(** The list [fetch_content] builds from a response object with the given
    entries: the answer, when included, the entries in order, the images,
    when included. *)
Definition fetch_content_records (self : Tavily.TavilySearchComponent)
    (body : dict) (entries : list dict) : list Data :=
  (extra answer_record
     (included (Tavily.include_answer self) body "answer")
   ++ map entry_record entries
   ++ extra images_record
        (included (Tavily.include_images self) body "images"))%list.

(** The same for [_tavily_search]. *)
Definition tavily_search_records (include_images include_answer : bool)
    (body : dict) (entries : list dict) : list Data :=
  (extra tool_answer_record (included include_answer body "answer")
   ++ map tool_entry_record entries
   ++ extra tool_images_record (included include_images body "images"))%list.

(** *** Failed searches

    [search_fails o m]: the POST came to [o], which is a failure of
    one of the three kinds [fetch_content] handles, and [m] is the error
    message composed for it. *)
Inductive search_fails : post_outcome -> string -> Prop :=
| request_error (m : string) :
    search_fails (PostFails m) ("Erro de requisição ocorrido: " ++ m)
| status_error (r : response) :
    is_success r = false ->
    search_fails (PostResponds r)
      ("Erro HTTP ocorrido: " ++ int_str (status_code r) ++ " - " ++ Py.text r)
| invalid_json (r : response) (m : string) :
    is_success r = true ->
    json_body r = inl m ->
    search_fails (PostResponds r) ("Formato de resposta inválido: " ++ m).

(** The state after one more request has been sent. *)
Definition after_request (s : state) (req : request) : state :=
  {| status := status s; log := log s;
     sent := (sent s ++ [req])%list; network := network s |}.

(** The message of the [ToolException] that [_tavily_search] raises for an
    exception of its [try] block. *)
Definition tool_error_message (e : exn) : string :=
  match e with
  | HTTPStatusError _ r =>
      "Erro HTTP: " ++ int_str (status_code r) ++ " - " ++ Py.text r
  | _ => "Erro inesperado: " ++ exn_str e
  end.

(** [isinstance(v, TavilySearchDepth)], [isinstance(v, TavilySearchTopic)] *)
Definition is_depth (v : pyval) : bool :=
  match v with VDepth _ => true | _ => false end.

Definition is_topic (v : pyval) : bool :=
  match v with VTopic _ => true | _ => false end.

(** The member a dropdown value stands for in [run_model]: the value itself
    when it is a member, else the member its lower-cased text names. *)
Definition depth_named (v : pyval) : result TavilySearchDepth :=
  match v with
  | VDepth d => Return d
  | _ => TavilySearch.TavilySearchDepth_of (lower (str v))
  end.

Definition topic_named (v : pyval) : result TavilySearchTopic :=
  match v with
  | VTopic t => Return t
  | _ => TavilySearch.TavilySearchTopic_of (lower (str v))
  end.

(** *** Requests a computation sends

    [sends m reqs]: run in any state, [m] sends exactly the requests [reqs],
    in that order, whether it returns or raises. *)
Definition sends {A : Type} (m : M A) (reqs : list request) : Prop :=
  forall s, sent (snd (m s)) = (sent s ++ reqs)%list.

(** *** What a computation returns

    [ensures m P]: whenever [m] returns, what it returns satisfies [P]. *)
Definition ensures {A : Type} (m : M A) (P : A -> Prop) : Prop :=
  forall s a s', m s = (Return a, s') -> P a.

(** A record built with a [text]. *)
Definition has_text (r : Data) : Prop :=
  exists t, text r = Some t.

(** What the template ["{text}"] shows of a record. *)
Definition shown_text (r : Data) : string :=
  match dict_get (record_fields r) "text" with
  | Some v => str v
  | None => EmptyString
  end.

(** *** Sample inputs *)

Definition quoted (s : string) : string :=
  String dquote (s ++ str_of_char dquote).

(** The JSON text of a document whose strings need no escaping. *)
Fixpoint json_text (v : pyval) : string :=
  match v with
  | VNone => "null"
  | VBool true => "true"
  | VBool false => "false"
  | VInt n => int_str n
  | VFloat r => r
  | VStr s => quoted s
  | VList l => "[" ++ String.concat ", " (map json_text l) ++ "]"
  | VDict d =>
      "{" ++ String.concat ", "
               (map (fun kv => quoted (fst kv) ++ ": " ++ json_text (snd kv)) d)
          ++ "}"
  | VDepth d => quoted (depth_value d)
  | VTopic t => quoted (topic_value t)
  end.

Definition answers (o : post_outcome) : list request -> request -> post_outcome :=
  fun _ _ => o.

Definition fresh (net : list request -> request -> post_outcome) : state :=
  {| status := StatusUnset; log := []; sent := []; network := net |}.

(** [200] with the body [[]]: valid JSON, not an object. *)
Definition array_response : response :=
  {| status_code := 200; Py.text := "[]"; json_body := inr (VList []);
     status_error_message := EmptyString |}.

(** [200] with an object whose ['results'] is [null]. *)
Definition null_results_response : response :=
  {| status_code := 200;
     Py.text := json_text (VDict [("answer", VStr "42"); ("results", VNone)]);
     json_body := inr (VDict [("answer", VStr "42"); ("results", VNone)]);
     status_error_message := EmptyString |}.

(** [200] with an object whose ['results'] holds [null] in place of an
    entry. *)
Definition null_entry_response : response :=
  {| status_code := 200;
     Py.text := json_text (VDict [("results", VList [VNone])]);
     json_body := inr (VDict [("results", VList [VNone])]);
     status_error_message := EmptyString |}.

Definition sample_body : dict :=
  [("answer", VStr "Lisboa");
   ("results",
    VList [VDict [("title", VStr "Portugal"); ("url", VStr "https://pt.example");
                  ("content", VStr "Lisboa"); ("score", VFloat "0.98")];
           VDict [("title", VStr "Capitais")]]);
   ("images", VList [VStr "https://img.example/1.png"])].

(** [200] with a well-formed search result of two entries. *)
Definition sample_response : response :=
  {| status_code := 200;
     Py.text := json_text (VDict sample_body);
     json_body := inr (VDict sample_body);
     status_error_message := EmptyString |}.

Definition server_error_response : response :=
  {| status_code := 500; Py.text := "Internal Server Error";
     json_body := inl "Expecting value: line 1 column 1 (char 0)";
     status_error_message :=
       "Server error '500 Internal Server Error' for url 'https://api.tavily.com/search'" |}.

Definition not_json_response : response :=
  {| status_code := 200; Py.text := "<html>";
     json_body := inl "Expecting value: line 1 column 1 (char 0)";
     status_error_message := EmptyString |}.

Definition sample_entries : list dict :=
  [[("title", VStr "Portugal"); ("url", VStr "https://pt.example");
    ("content", VStr "Lisboa"); ("score", VFloat "0.98")];
   [("title", VStr "Capitais")]].

Definition sample_component : Tavily.TavilySearchComponent :=
  {| Tavily.api_key := "tvly-key"; Tavily.query := "capital de Portugal";
     Tavily.search_depth := "avançada"; Tavily.topic := "geral";
     Tavily.time_range := None; Tavily.max_results := 5;
     Tavily.include_images := true; Tavily.include_answer := true |}.

Definition sample_tool (depth tp : pyval) : TavilySearch.TavilySearchToolComponent :=
  {| TavilySearch.api_key := "tvly-key";
     TavilySearch.query := "capital de Portugal";
     TavilySearch.search_depth := depth; TavilySearch.topic := tp;
     TavilySearch.max_results := 5;
     TavilySearch.include_images := true;
     TavilySearch.include_answer := true |}.

Definition sample_frame : ParseDataFrame.DataFrame :=
  {| ParseDataFrame.columns := ["name"; "age"];
     ParseDataFrame.rows := [[VStr "Ana"; VInt 31]; [VStr "Rui"; VInt 27]] |}.

(** A state in which nothing was sent yet and the network answers [r]. *)
Definition answered (r : response) : state :=
  fresh (answers (PostResponds r)).

(** *** Vocabulary of the further properties *)

(** [raises_only m P]: whatever exception [m] lets out satisfies [P]. *)
Definition raises_only {A : Type} (m : M A) (P : exn -> Prop) : Prop :=
  forall s e s', m s = (Raise e, s') -> P e.

(** [quiet_step m]: [m] leaves the state as it found it. *)
Definition quiet_step {A : Type} (m : M A) : Prop :=
  forall s, snd (m s) = s.

(** The exceptions of a lookup on an object of the wrong type. *)
Definition is_lookup_error (e : exn) : bool :=
  match e with
  | AttributeError _ | TypeError _ => true
  | _ => false
  end.

(** The tool component with other values in its two dropdowns. *)
Definition with_dropdowns (self : TavilySearch.TavilySearchToolComponent)
    (depth tp : pyval) : TavilySearch.TavilySearchToolComponent :=
  {| TavilySearch.api_key := TavilySearch.api_key self;
     TavilySearch.query := TavilySearch.query self;
     TavilySearch.search_depth := depth;
     TavilySearch.topic := tp;
     TavilySearch.max_results := TavilySearch.max_results self;
     TavilySearch.include_images := TavilySearch.include_images self;
     TavilySearch.include_answer := TavilySearch.include_answer self |}.

(** Two records hold the same value, or both none, under a key. *)
Definition agree_on (k : string) (a b : Data) : Prop :=
  dict_get (data a) k = dict_get (data b) k.

(** A template without braces. *)
Definition no_braces (t : string) : bool :=
  negb (contains_char "{" t) && negb (contains_char "}" t).

(** [sample_component] with both extras switched off. *)
Definition plain_component : Tavily.TavilySearchComponent :=
  {| Tavily.api_key := "tvly-key"; Tavily.query := "capital de Portugal";
     Tavily.search_depth := "básica"; Tavily.topic := "geral";
     Tavily.time_range := Some "semana"; Tavily.max_results := 3;
     Tavily.include_images := false; Tavily.include_answer := false |}.

Definition text_frame : ParseDataFrame.DataFrame :=
  {| ParseDataFrame.columns := ["id"; "text"];
     ParseDataFrame.rows := [[VInt 1; VStr "Olá"]; [VInt 2; VStr "Mundo"]] |}.

End Spec.

(** * Properties *)

Import Py Schema Httpx Host.

(** ** Requests sent *)

Section Sends.

Context {A B : Type}.

Lemma sends_ret (a : A) : Spec.sends (ret a) [].
Proof. intros s. simpl. now rewrite app_nil_r. Qed.

Lemma sends_raise (e : exn) : Spec.sends (@raise A e) [].
Proof. intros s. simpl. now rewrite app_nil_r. Qed.

Lemma sends_lift (r : result A) : Spec.sends (lift r) [].
Proof. intros s. simpl. now rewrite app_nil_r. Qed.

Lemma sends_bind (m : M A) (k : A -> M B) (reqs : list request) :
  Spec.sends m reqs ->
  (forall a, Spec.sends (k a) []) ->
  Spec.sends (bind m k) reqs.
Proof.
  intros Hm Hk s. unfold bind. specialize (Hm s).
  destruct (m s) as [[a | e] s1]; simpl in *.
  - rewrite (Hk a s1), app_nil_r. exact Hm.
  - exact Hm.
Qed.

Lemma sends_try_except_else (body : M A) (handler : exn -> option (M B))
    (orelse : A -> M B) (reqs : list request) :
  Spec.sends body reqs ->
  (forall e h, handler e = Some h -> Spec.sends h []) ->
  (forall a, Spec.sends (orelse a) []) ->
  Spec.sends (try_except_else body handler orelse) reqs.
Proof.
  intros Hb Hh Ho s. unfold try_except_else. specialize (Hb s).
  destruct (body s) as [[a | e] s1]; simpl in *.
  - rewrite (Ho a s1), app_nil_r. exact Hb.
  - destruct (handler e) as [h |] eqn:He; simpl.
    + rewrite (Hh e h He s1), app_nil_r. exact Hb.
    + exact Hb.
Qed.

Lemma sends_for_each (xs : list A) (body : A -> B -> M B) :
  (forall x acc, Spec.sends (body x acc) []) ->
  forall acc, Spec.sends (for_each xs acc body) [].
Proof.
  intros Hbody. induction xs as [| x xs IH]; intros acc; simpl.
  - intros s. simpl. now rewrite app_nil_r.
  - intros s. unfold bind. pose proof (Hbody x acc s) as Hx.
    destruct (body x acc s) as [[acc' | e] s1]; simpl in *.
    + rewrite (IH acc' s1). rewrite Hx. now rewrite !app_nil_r.
    + exact Hx.
Qed.

Lemma sends_comprehension (f : A -> M B) (xs : list A) :
  (forall x, Spec.sends (f x) []) ->
  Spec.sends (comprehension f xs) [].
Proof.
  intros Hf. induction xs as [| x xs IH]; simpl.
  - intros s. simpl. now rewrite app_nil_r.
  - intros s. unfold bind. pose proof (Hf x s) as Hx.
    destruct (f x s) as [[y | e] s1]; simpl in *; [| exact Hx].
    pose proof (IH s1) as Hxs.
    destruct (comprehension f xs s1) as [[ys | e] s2]; simpl in *;
      rewrite Hxs, Hx; now rewrite !app_nil_r.
Qed.

End Sends.

Lemma sends_set_status (v : status_value) : Spec.sends (set_status v) [].
Proof. intros s. simpl. now rewrite app_nil_r. Qed.

Lemma sends_logger (level message : string) :
  Spec.sends (logger level message) [].
Proof. intros s. simpl. now rewrite app_nil_r. Qed.

Lemma sends_post (u : string) (payload : dict) (hs : list (string * string)) :
  Spec.sends (post u payload hs) [ {| url := u; json := payload; headers := hs |} ].
Proof. intros s. unfold post. now destruct (network s (sent s) _). Qed.

Lemma sends_raise_for_status (r : response) :
  Spec.sends (raise_for_status r) [].
Proof.
  unfold raise_for_status. destruct (is_success r);
    [apply sends_ret | apply sends_raise].
Qed.

Lemma sends_response_json (r : response) : Spec.sends (response_json r) [].
Proof.
  unfold response_json. destruct (json_body r);
    [apply sends_raise | apply sends_ret].
Qed.

Create HintDb sends.
#[local] Hint Resolve sends_ret sends_raise sends_lift sends_set_status
  sends_logger sends_raise_for_status sends_response_json : sends.

(** Steps that send nothing, chained. *)
Ltac quiet :=
  repeat first
    [ progress intros
    | apply sends_bind
    | apply sends_for_each
    | apply sends_comprehension
    | solve [auto with sends]
    | match goal with
      | |- Spec.sends (if ?b then _ else _) _ => destruct b
      end ].

Lemma sends_result_record (result : pyval) (acc : list Data) :
  Spec.sends (Tavily.result_record result acc) [].
Proof. unfold Tavily.result_record. quiet. Qed.

Lemma sends_fetch_content_collect (self : Tavily.TavilySearchComponent)
    (v : pyval) :
  Spec.sends (Tavily.fetch_content_collect self v) [].
Proof.
  unfold Tavily.fetch_content_collect. quiet.
Qed.

Lemma sends_fetch_content (self : Tavily.TavilySearchComponent) :
  Spec.sends (Tavily.fetch_content self) [Tavily.search_request self].
Proof.
  unfold Tavily.fetch_content. apply sends_try_except_else.
  - unfold Tavily.fetch_content_try. apply sends_bind; [apply sends_post |].
    intros r. quiet.
  - intros e h He. destruct e; simpl in He; inversion He; subst; quiet.
  - quiet.
Qed.

Lemma sends_item_record (item : pyval) :
  Spec.sends (TavilySearch.item_record item) [].
Proof. unfold TavilySearch.item_record. quiet. Qed.

Lemma sends_tavily_search_collect (include_images include_answer : bool)
    (v : pyval) :
  Spec.sends (TavilySearch._tavily_search_collect include_images include_answer v) [].
Proof.
  unfold TavilySearch._tavily_search_collect. quiet.
Qed.

Lemma sends_tavily_search (self : TavilySearch.TavilySearchToolComponent)
    (query : string) (d : TavilySearchDepth) (t : TavilySearchTopic)
    (max_results : Z) (include_images include_answer : bool) :
  Spec.sends
    (TavilySearch._tavily_search self query (VDepth d) (VTopic t)
       max_results include_images include_answer)
    [TavilySearch.search_request self query d t max_results
       include_images include_answer].
Proof.
  unfold TavilySearch._tavily_search, try_except.
  apply sends_try_except_else.
  - unfold TavilySearch._tavily_search_try.
    apply sends_bind; [apply sends_post |].
    intros r. quiet.
  - intros e h He. destruct e; simpl in He; inversion He; subst; quiet.
  - quiet.
Qed.

(** C6.  Every call of [fetch_content], and every call of [_tavily_search]
    whose [search_depth] and [topic] are enumeration members, sends exactly
    one request, whatever the network answers and whether the call returns
    or raises: the requests sent afterwards are those sent before followed
    by one POST to the Tavily search endpoint, whose JSON body holds the
    API key, the query and the configuration fields. *)
Theorem one_post_per_search
    (self : Tavily.TavilySearchComponent)
    (tool : TavilySearch.TavilySearchToolComponent) (query : string)
    (d : TavilySearchDepth) (t : TavilySearchTopic) (max_results : Z)
    (include_images include_answer : bool) (s : state) :
  let req := {| url := "https://api.tavily.com/search";
                json := [("api_key", VStr (Tavily.api_key self));
                         ("query", VStr (Tavily.query self));
                         ("search_depth", VStr (Tavily.search_depth self));
                         ("topic", VStr (Tavily.topic self));
                         ("max_results", VInt (Tavily.max_results self));
                         ("include_images", VBool (Tavily.include_images self));
                         ("include_answer", VBool (Tavily.include_answer self));
                         ("time_range",
                          match Tavily.time_range self with
                          | Some r => VStr r
                          | None => VNone
                          end)];
                headers := [("content-type", "application/json");
                            ("accept", "application/json")] |} in
  let tool_req := {| url := "https://api.tavily.com/search";
                     json := [("api_key", VStr (TavilySearch.api_key tool));
                              ("query", VStr query);
                              ("search_depth", VStr (depth_value d));
                              ("topic", VStr (topic_value t));
                              ("max_results", VInt max_results);
                              ("include_images", VBool include_images);
                              ("include_answer", VBool include_answer)];
                     headers := [("content-type", "application/json");
                                 ("accept", "application/json")] |} in
  sent (snd (Tavily.fetch_content self s)) = (sent s ++ [req])%list /\
  sent (snd (TavilySearch._tavily_search tool query (VDepth d) (VTopic t)
               max_results include_images include_answer s))
  = (sent s ++ [tool_req])%list.
Proof.
  cbv zeta. split.
  - apply (sends_fetch_content self s).
  - apply (sends_tavily_search tool query d t max_results
             include_images include_answer s).
Qed.

(** ** Shape of a response *)

Lemma all_dicts_map (l : list pyval) (entries : list dict) :
  Spec.all_dicts l = Some entries -> l = map VDict entries.
Proof.
  revert entries. induction l as [| v l IH]; intros entries H; simpl in H.
  - now inversion H.
  - destruct v; try discriminate.
    destruct (Spec.all_dicts l) as [es |]; simpl in H; inversion H; subst.
    simpl. now rewrite (IH es eq_refl).
Qed.

(** What iterating over the ['results'] of a well-formed body visits. *)
Lemma results_iter (body : dict) (entries : list dict) :
  Spec.results_entries body = Some entries ->
  exists v, get (VDict body) "results" (VList []) = Return v /\
            iter v = Return (map VDict entries).
Proof.
  unfold Spec.results_entries, get. intros H.
  destruct (dict_get body "results") as [v |].
  - exists v. split; [reflexivity |].
    destruct v; try discriminate. simpl. now rewrite (all_dicts_map _ _ H).
  - inversion H; subst. now exists (VList []).
Qed.

(** An extra is looked up and tested as [Spec.included] says. *)
Lemma included_run {A : Type} (flag : bool) (body : dict) (k : string)
    (acc : A) (add : pyval -> A) (s : state) :
  (if flag then
     bind (lift (get (VDict body) k VNone)) (fun v =>
       if truthy v then
         bind (lift (getitem (VDict body) k)) (fun v' => ret (add v'))
       else ret acc)
   else ret acc) s
  = (Return (match Spec.included flag body k with
             | Some v => add v
             | None => acc
             end), s).
Proof.
  unfold Spec.included, bind, lift, ret, get, getitem.
  destruct flag; [| reflexivity].
  destruct (dict_get body k) as [v |] eqn:Hk; simpl.
  - now destruct (truthy v).
  - reflexivity.
Qed.

(** ** Records built by [tavily.py] *)

Lemma result_record_run (entry : dict) (acc : list Data) (s : state) :
  Tavily.result_record (VDict entry) acc s
  = (Return (acc ++ [Spec.entry_record entry])%list, s).
Proof. reflexivity. Qed.

Lemma for_each_result_record (entries : list dict) :
  forall (acc : list Data) (s : state),
    for_each (map VDict entries) acc Tavily.result_record s
    = (Return (acc ++ map Spec.entry_record entries)%list, s).
Proof.
  induction entries as [| entry entries IH]; intros acc s; simpl.
  - now rewrite app_nil_r.
  - unfold bind. rewrite result_record_run, IH.
    now rewrite <- app_assoc.
Qed.

Lemma fetch_content_collect_run (self : Tavily.TavilySearchComponent)
    (body : dict) (entries : list dict) (s : state) :
  Spec.results_entries body = Some entries ->
  Tavily.fetch_content_collect self (VDict body) s
  = (Return (Spec.fetch_content_records self body entries), s).
Proof.
  intros Hshape. destruct (results_iter body entries Hshape) as (v & Hget & Hiter).
  unfold Tavily.fetch_content_collect, Spec.fetch_content_records.
  unfold bind at 1. rewrite included_run.
  unfold bind at 1. unfold lift at 1. rewrite Hget.
  unfold bind at 1. unfold lift at 1. rewrite Hiter.
  unfold bind at 1. rewrite for_each_result_record.
  rewrite included_run.
  destruct (Spec.included (Tavily.include_answer self) body "answer");
    destruct (Spec.included (Tavily.include_images self) body "images");
    simpl; rewrite ?app_nil_r; try reflexivity.
Qed.

(** ** [fetch_content], outcome by outcome *)

Section FetchContent.

Variable self : Tavily.TavilySearchComponent.
Variable s : state.

Let req := Tavily.search_request self.
Let s1 := Spec.after_request s req.

Lemma fetch_content_try_decoded (r : response) (v : pyval) :
  network s (sent s) req = PostResponds r ->
  is_success r = true ->
  json_body r = inr v ->
  Tavily.fetch_content_try self s = Tavily.fetch_content_collect self v s1.
Proof.
  intros Hnet Hok Hjson.
  unfold Tavily.fetch_content_try, bind at 1, post.
  unfold req, Tavily.search_request in Hnet. rewrite Hnet.
  unfold bind at 1, raise_for_status. rewrite Hok.
  unfold ret at 1, bind at 1, response_json. rewrite Hjson.
  reflexivity.
Qed.

Lemma fetch_content_try_fails (m : string) :
  network s (sent s) req = PostFails m ->
  Tavily.fetch_content_try self s = (Raise (RequestError m), s1).
Proof.
  intros Hnet. unfold Tavily.fetch_content_try, bind at 1, post.
  unfold req, Tavily.search_request in Hnet. now rewrite Hnet.
Qed.

Lemma fetch_content_try_status (r : response) :
  network s (sent s) req = PostResponds r ->
  is_success r = false ->
  Tavily.fetch_content_try self s
  = (Raise (HTTPStatusError (status_error_message r) r), s1).
Proof.
  intros Hnet Hok. unfold Tavily.fetch_content_try, bind at 1, post.
  unfold req, Tavily.search_request in Hnet. rewrite Hnet.
  unfold bind at 1, raise_for_status. now rewrite Hok.
Qed.

Lemma fetch_content_try_not_json (r : response) (m : string) :
  network s (sent s) req = PostResponds r ->
  is_success r = true ->
  json_body r = inl m ->
  Tavily.fetch_content_try self s = (Raise (ValueError m), s1).
Proof.
  intros Hnet Hok Hjson. unfold Tavily.fetch_content_try, bind at 1, post.
  unfold req, Tavily.search_request in Hnet. rewrite Hnet.
  unfold bind at 1, raise_for_status. rewrite Hok.
  unfold ret at 1, bind at 1, response_json. now rewrite Hjson.
Qed.

(** A failed search: the message is logged and returned in a record. *)
Lemma fetch_content_failure (m : string) :
  Spec.search_fails (network s (sent s) req) m ->
  Tavily.fetch_content self s
  = (Return [Tavily.error_record m],
     {| status := status s; log := (log s ++ [("ERROR", m)])%list;
        sent := (sent s ++ [req])%list; network := network s |}).
Proof.
  intros Hfail. unfold Tavily.fetch_content, try_except_else.
  inversion Hfail as [m0 Ho Hm | r Hok Ho Hm | r m0 Hok Hjson Ho Hm];
    symmetry in Ho.
  - now rewrite (fetch_content_try_fails m0 Ho).
  - now rewrite (fetch_content_try_status r Ho Hok).
  - now rewrite (fetch_content_try_not_json r m0 Ho Hok Hjson).
Qed.

(** A successful search with a well-formed body. *)
Lemma fetch_content_success (r : response) (body : dict)
    (entries : list dict) :
  network s (sent s) req = PostResponds r ->
  is_success r = true ->
  json_body r = inr (VDict body) ->
  Spec.results_entries body = Some entries ->
  Tavily.fetch_content self s
  = (Return (Spec.fetch_content_records self body entries),
     {| status := StatusData (Spec.fetch_content_records self body entries);
        log := log s; sent := (sent s ++ [req])%list;
        network := network s |}).
Proof.
  intros Hnet Hok Hjson Hshape. unfold Tavily.fetch_content, try_except_else.
  rewrite (fetch_content_try_decoded r (VDict body) Hnet Hok Hjson).
  now rewrite (fetch_content_collect_run self body entries s1 Hshape).
Qed.

End FetchContent.

(** ** Records built by [tavily_search.py] *)

Lemma item_record_run (entry : dict) (s : state) :
  TavilySearch.item_record (VDict entry) s
  = (Return (Spec.tool_entry_record entry), s).
Proof. reflexivity. Qed.

Lemma comprehension_item_record (entries : list dict) (s : state) :
  comprehension TavilySearch.item_record (map VDict entries) s
  = (Return (map Spec.tool_entry_record entries), s).
Proof.
  induction entries as [| entry entries IH]; simpl; [reflexivity |].
  unfold bind at 1. rewrite item_record_run.
  unfold bind at 1. now rewrite IH.
Qed.

Lemma tavily_search_collect_run (include_images include_answer : bool)
    (body : dict) (entries : list dict) (s : state) :
  Spec.results_entries body = Some entries ->
  TavilySearch._tavily_search_collect include_images include_answer
    (VDict body) s
  = (Return (Spec.tavily_search_records include_images include_answer
               body entries), s).
Proof.
  intros Hshape. destruct (results_iter body entries Hshape) as (v & Hget & Hiter).
  unfold TavilySearch._tavily_search_collect, Spec.tavily_search_records.
  unfold bind at 1. unfold lift at 1. rewrite Hget.
  unfold bind at 1. unfold lift at 1. rewrite Hiter.
  unfold bind at 1. rewrite comprehension_item_record.
  unfold bind at 1. rewrite included_run.
  rewrite included_run.
  destruct (Spec.included include_answer body "answer");
    destruct (Spec.included include_images body "images");
    simpl; rewrite ?app_nil_r; reflexivity.
Qed.

(** ** [_tavily_search], outcome by outcome *)

Section TavilySearchRun.

Variable self : TavilySearch.TavilySearchToolComponent.
Variable query : string.
Variable depth : TavilySearchDepth.
Variable tp : TavilySearchTopic.
Variable max_results : Z.
Variables include_images include_answer : bool.
Variable s : state.

Let req :=
  TavilySearch.search_request self query depth tp max_results
    include_images include_answer.
Let s1 := Spec.after_request s req.

Lemma tavily_search_try_decoded (r : response) (v : pyval) :
  network s (sent s) req = PostResponds r ->
  is_success r = true ->
  json_body r = inr v ->
  TavilySearch._tavily_search_try self query depth tp max_results
    include_images include_answer s
  = bind (TavilySearch._tavily_search_collect include_images include_answer v)
      (fun data_results =>
         bind (set_status (StatusData data_results))
           (fun _ => ret data_results)) s1.
Proof.
  intros Hnet Hok Hjson.
  unfold TavilySearch._tavily_search_try, bind at 1, post.
  unfold req, TavilySearch.search_request in Hnet. rewrite Hnet.
  unfold bind at 1, raise_for_status. rewrite Hok.
  unfold ret at 1, bind at 1, response_json. rewrite Hjson.
  reflexivity.
Qed.

Lemma tavily_search_try_fails (m : string) :
  network s (sent s) req = PostFails m ->
  TavilySearch._tavily_search_try self query depth tp max_results
    include_images include_answer s
  = (Raise (RequestError m), s1).
Proof.
  intros Hnet. unfold TavilySearch._tavily_search_try, bind at 1, post.
  unfold req, TavilySearch.search_request in Hnet. now rewrite Hnet.
Qed.

Lemma tavily_search_try_status (r : response) :
  network s (sent s) req = PostResponds r ->
  is_success r = false ->
  TavilySearch._tavily_search_try self query depth tp max_results
    include_images include_answer s
  = (Raise (HTTPStatusError (status_error_message r) r), s1).
Proof.
  intros Hnet Hok. unfold TavilySearch._tavily_search_try, bind at 1, post.
  unfold req, TavilySearch.search_request in Hnet. rewrite Hnet.
  unfold bind at 1, raise_for_status. now rewrite Hok.
Qed.

(** Whatever the [try] block raises comes out as a [ToolException] with
    the message composed for it, which is also left in [status]. *)
Lemma tavily_search_raises (e : exn) (s' : state) :
  TavilySearch._tavily_search_try self query depth tp max_results
    include_images include_answer s = (Raise e, s') ->
  exists level logged,
    TavilySearch._tavily_search self query (VDepth depth) (VTopic tp)
      max_results include_images include_answer s
    = (Raise (ToolException (Spec.tool_error_message e)),
       {| status := StatusText (Spec.tool_error_message e);
          log := (log s' ++ [(level, logged)])%list;
          sent := sent s'; network := network s' |}).
Proof.
  intros Htry. unfold TavilySearch._tavily_search, try_except, try_except_else.
  rewrite Htry. destruct e; simpl; eexists; eexists; reflexivity.
Qed.

(** A successful search with a well-formed body. *)
Lemma tavily_search_success (r : response) (body : dict)
    (entries : list dict) :
  network s (sent s) req = PostResponds r ->
  is_success r = true ->
  json_body r = inr (VDict body) ->
  Spec.results_entries body = Some entries ->
  TavilySearch._tavily_search self query (VDepth depth) (VTopic tp)
    max_results include_images include_answer s
  = (Return (Spec.tavily_search_records include_images include_answer
               body entries),
     {| status := StatusData (Spec.tavily_search_records include_images
                                include_answer body entries);
        log := log s; sent := (sent s ++ [req])%list;
        network := network s |}).
Proof.
  intros Hnet Hok Hjson Hshape.
  unfold TavilySearch._tavily_search, try_except, try_except_else.
  rewrite (tavily_search_try_decoded r (VDict body) Hnet Hok Hjson).
  unfold bind at 1.
  now rewrite (tavily_search_collect_run include_images include_answer
                 body entries s1 Hshape).
Qed.

End TavilySearchRun.

(** ** Successful searches *)

Lemma entry_records_hold_fields (entries : list dict) :
  Forall2 (fun rec entry => Spec.holds_entry_fields rec entry (VStr EmptyString))
    (map Spec.entry_record entries) entries.
Proof.
  induction entries as [| entry entries IH]; simpl; constructor; auto.
  repeat split.
Qed.

Lemma tool_entry_records_hold_fields (entries : list dict) :
  Forall2 (fun rec entry => Spec.holds_entry_fields rec entry VNone)
    (map Spec.tool_entry_record entries) entries.
Proof.
  induction entries as [| entry entries IH]; simpl; constructor; auto.
  repeat split.
Qed.

(** C1, as amended.  When the POST is answered with a 2xx status and a JSON
    body that is an object whose ['results'] is absent or an array of
    objects, [fetch_content] and [_tavily_search] (called with enumeration
    members) each return a list that contains, in order, one record per
    entry of ['results']; the [data] of each such record holds [title],
    [url], [content] and [score] as the entry has them ([None] for a field
    the entry lacks; in [fetch_content] the empty string for a missing
    [content]). *)
Theorem search_returns_one_record_per_result
    (self : Tavily.TavilySearchComponent)
    (tool : TavilySearch.TavilySearchToolComponent) (query : string)
    (d : TavilySearchDepth) (t : TavilySearchTopic) (max_results : Z)
    (include_images include_answer : bool)
    (s : state) (r : response) (body : dict) (entries : list dict) :
  (forall req, network s (sent s) req = PostResponds r) ->
  is_success r = true ->
  json_body r = inr (VDict body) ->
  Spec.results_entries body = Some entries ->
  (exists before records after,
      fst (Tavily.fetch_content self s)
      = Return (before ++ records ++ after)%list /\
      Forall2 (fun rec entry =>
                 Spec.holds_entry_fields rec entry (VStr EmptyString))
        records entries) /\
  (exists before records after,
      fst (TavilySearch._tavily_search tool query (VDepth d) (VTopic t)
             max_results include_images include_answer s)
      = Return (before ++ records ++ after)%list /\
      Forall2 (fun rec entry => Spec.holds_entry_fields rec entry VNone)
        records entries).
Proof.
  intros Hnet Hok Hjson Hshape. split.
  - rewrite (fetch_content_success self s r body entries
               (Hnet _) Hok Hjson Hshape).
    unfold Spec.fetch_content_records. simpl fst.
    do 3 eexists. split; [reflexivity | apply entry_records_hold_fields].
  - rewrite (tavily_search_success tool query d t max_results include_images
               include_answer s r body entries (Hnet _) Hok Hjson Hshape).
    unfold Spec.tavily_search_records. simpl fst.
    do 3 eexists. split; [reflexivity | apply tool_entry_records_hold_fields].
Qed.

Lemma search_returns_one_record_per_result_witness :
  (forall req,
      network (Spec.answered Spec.sample_response)
        (sent (Spec.answered Spec.sample_response)) req
      = PostResponds Spec.sample_response) /\
  is_success Spec.sample_response = true /\
  json_body Spec.sample_response = inr (VDict Spec.sample_body) /\
  Spec.results_entries Spec.sample_body = Some Spec.sample_entries /\
  (exists before records after,
      fst (Tavily.fetch_content Spec.sample_component
             (Spec.answered Spec.sample_response))
      = Return (before ++ records ++ after)%list /\
      Forall2 (fun rec entry =>
                 Spec.holds_entry_fields rec entry (VStr EmptyString))
        records Spec.sample_entries) /\
  (exists before records after,
      fst (TavilySearch._tavily_search
             (Spec.sample_tool (VDepth ADVANCED) (VTopic GENERAL))
             "capital de Portugal" (VDepth ADVANCED) (VTopic GENERAL)
             5 true true (Spec.answered Spec.sample_response))
      = Return (before ++ records ++ after)%list /\
      Forall2 (fun rec entry => Spec.holds_entry_fields rec entry VNone)
        records Spec.sample_entries).
Proof.
  split; [reflexivity |]. split; [reflexivity |]. split; [reflexivity |].
  split; [reflexivity |].
  apply (search_returns_one_record_per_result Spec.sample_component
           (Spec.sample_tool (VDepth ADVANCED) (VTopic GENERAL))
           "capital de Portugal" ADVANCED GENERAL 5 true true
           (Spec.answered Spec.sample_response) Spec.sample_response
           Spec.sample_body Spec.sample_entries);
    reflexivity.
Defined.

(** C1 as stated fails: a 2xx response whose body is the valid JSON
    document [[]] makes [fetch_content] raise [AttributeError], which none
    of its [except] clauses catches, and makes [_tavily_search] raise
    [ToolException]; neither returns a list. *)
Lemma success_with_array_body_returns_no_list :
  is_success Spec.array_response = true /\
  json_body Spec.array_response = inr (VList []) /\
  fst (Tavily.fetch_content Spec.sample_component
         (Spec.answered Spec.array_response))
  = Raise (AttributeError "'list' object has no attribute 'get'") /\
  fst (TavilySearch._tavily_search
         (Spec.sample_tool (VDepth ADVANCED) (VTopic GENERAL))
         "capital de Portugal" (VDepth ADVANCED) (VTopic GENERAL)
         5 true true (Spec.answered Spec.array_response))
  = Raise (ToolException
             "Erro inesperado: 'list' object has no attribute 'get'").
Proof. repeat split. Qed.

(** C8, as amended.  When the POST is answered with a 2xx status and a JSON
    body that is an object whose ['results'] is absent or an array of
    objects, the list that [fetch_content] returns, and the list that
    [_tavily_search] returns, begins with the answer record if the answer
    flag is set and the body holds a non-empty ['answer'], ends with the
    images record if the images flag is set and the body holds a non-empty
    ['images'], and is as long as the number of entries of ['results'] plus
    one for each of the two extras that is included. *)
Theorem extras_first_last_and_length
    (self : Tavily.TavilySearchComponent)
    (tool : TavilySearch.TavilySearchToolComponent) (query : string)
    (d : TavilySearchDepth) (t : TavilySearchTopic) (max_results : Z)
    (include_images include_answer : bool)
    (s : state) (r : response) (body : dict) (entries : list dict) :
  (forall req, network s (sent s) req = PostResponds r) ->
  is_success r = true ->
  json_body r = inr (VDict body) ->
  Spec.results_entries body = Some entries ->
  (exists records,
      fst (Tavily.fetch_content self s) = Return records /\
      (forall answer,
          Tavily.include_answer self = true ->
          dict_get body "answer" = Some answer ->
          truthy answer = true ->
          exists rest, records = Spec.answer_record answer :: rest) /\
      (forall images,
          Tavily.include_images self = true ->
          dict_get body "images" = Some images ->
          truthy images = true ->
          exists front, records = (front ++ [Spec.images_record images])%list) /\
      length records
      = (length entries
         + Spec.count_extra
             (Spec.included (Tavily.include_answer self) body "answer")
         + Spec.count_extra
             (Spec.included (Tavily.include_images self) body "images"))%nat) /\
  (exists records,
      fst (TavilySearch._tavily_search tool query (VDepth d) (VTopic t)
             max_results include_images include_answer s)
      = Return records /\
      (forall answer,
          include_answer = true ->
          dict_get body "answer" = Some answer ->
          truthy answer = true ->
          exists rest, records = Spec.tool_answer_record answer :: rest) /\
      (forall images,
          include_images = true ->
          dict_get body "images" = Some images ->
          truthy images = true ->
          exists front,
            records = (front ++ [Spec.tool_images_record images])%list) /\
      length records
      = (length entries
         + Spec.count_extra (Spec.included include_answer body "answer")
         + Spec.count_extra (Spec.included include_images body "images"))%nat).
Proof.
  intros Hnet Hok Hjson Hshape. split.
  - rewrite (fetch_content_success self s r body entries
               (Hnet _) Hok Hjson Hshape).
    unfold Spec.fetch_content_records. simpl fst.
    eexists. split; [reflexivity |]. split; [| split].
    + intros answer Hflag Hget Htrue. unfold Spec.included.
      rewrite Hflag, Hget, Htrue. simpl. eexists. reflexivity.
    + intros images Hflag Hget Htrue.
      unfold Spec.included at 2. rewrite Hflag, Hget, Htrue. simpl.
      eexists. rewrite app_assoc. reflexivity.
    + rewrite !length_app, length_map.
      destruct (Spec.included (Tavily.include_answer self) body "answer");
        destruct (Spec.included (Tavily.include_images self) body "images");
        simpl; lia.
  - rewrite (tavily_search_success tool query d t max_results include_images
               include_answer s r body entries (Hnet _) Hok Hjson Hshape).
    unfold Spec.tavily_search_records. simpl fst.
    eexists. split; [reflexivity |]. split; [| split].
    + intros answer Hflag Hget Htrue. unfold Spec.included.
      rewrite Hflag, Hget, Htrue. simpl. eexists. reflexivity.
    + intros images Hflag Hget Htrue.
      unfold Spec.included at 2. rewrite Hflag, Hget, Htrue. simpl.
      eexists. rewrite app_assoc. reflexivity.
    + rewrite !length_app, length_map.
      destruct (Spec.included include_answer body "answer");
        destruct (Spec.included include_images body "images");
        simpl; lia.
Qed.

Lemma extras_first_last_and_length_witness :
  (forall req,
      network (Spec.answered Spec.sample_response)
        (sent (Spec.answered Spec.sample_response)) req
      = PostResponds Spec.sample_response) /\
  is_success Spec.sample_response = true /\
  json_body Spec.sample_response = inr (VDict Spec.sample_body) /\
  Spec.results_entries Spec.sample_body = Some Spec.sample_entries /\
  (exists records,
      fst (Tavily.fetch_content Spec.sample_component
             (Spec.answered Spec.sample_response)) = Return records /\
      (forall answer,
          Tavily.include_answer Spec.sample_component = true ->
          dict_get Spec.sample_body "answer" = Some answer ->
          truthy answer = true ->
          exists rest, records = Spec.answer_record answer :: rest) /\
      (forall images,
          Tavily.include_images Spec.sample_component = true ->
          dict_get Spec.sample_body "images" = Some images ->
          truthy images = true ->
          exists front, records = (front ++ [Spec.images_record images])%list) /\
      length records
      = (length Spec.sample_entries
         + Spec.count_extra
             (Spec.included (Tavily.include_answer Spec.sample_component)
                Spec.sample_body "answer")
         + Spec.count_extra
             (Spec.included (Tavily.include_images Spec.sample_component)
                Spec.sample_body "images"))%nat) /\
  (exists records,
      fst (TavilySearch._tavily_search
             (Spec.sample_tool (VDepth ADVANCED) (VTopic GENERAL))
             "capital de Portugal" (VDepth ADVANCED) (VTopic GENERAL)
             5 true true (Spec.answered Spec.sample_response))
      = Return records /\
      (forall answer,
          true = true ->
          dict_get Spec.sample_body "answer" = Some answer ->
          truthy answer = true ->
          exists rest, records = Spec.tool_answer_record answer :: rest) /\
      (forall images,
          true = true ->
          dict_get Spec.sample_body "images" = Some images ->
          truthy images = true ->
          exists front,
            records = (front ++ [Spec.tool_images_record images])%list) /\
      length records
      = (length Spec.sample_entries
         + Spec.count_extra (Spec.included true Spec.sample_body "answer")
         + Spec.count_extra (Spec.included true Spec.sample_body "images"))%nat).
Proof.
  split; [reflexivity |]. split; [reflexivity |]. split; [reflexivity |].
  split; [reflexivity |].
  apply (extras_first_last_and_length Spec.sample_component
           (Spec.sample_tool (VDepth ADVANCED) (VTopic GENERAL))
           "capital de Portugal" ADVANCED GENERAL 5 true true
           (Spec.answered Spec.sample_response) Spec.sample_response
           Spec.sample_body Spec.sample_entries);
    reflexivity.
Defined.

(** C8 as stated fails: the answer flag is set and the 2xx response holds
    the non-empty answer ["42"], but its ['results'] is [null], and no list
    is returned: [fetch_content] raises [TypeError], [_tavily_search]
    raises [ToolException]. *)
Lemma success_with_null_results_returns_no_list :
  is_success Spec.null_results_response = true /\
  json_body Spec.null_results_response
  = inr (VDict [("answer", VStr "42"); ("results", VNone)]) /\
  Tavily.include_answer Spec.sample_component = true /\
  truthy (VStr "42") = true /\
  fst (Tavily.fetch_content Spec.sample_component
         (Spec.answered Spec.null_results_response))
  = Raise (TypeError "'NoneType' object is not iterable") /\
  fst (TavilySearch._tavily_search
         (Spec.sample_tool (VDepth ADVANCED) (VTopic GENERAL))
         "capital de Portugal" (VDepth ADVANCED) (VTopic GENERAL)
         5 true true (Spec.answered Spec.null_results_response))
  = Raise (ToolException
             "Erro inesperado: 'NoneType' object is not iterable").
Proof. repeat split. Qed.

(** ** Failed searches *)

(** C2.  When the POST raises a request error, or is answered with a status
    outside 2xx, or with a body that is not JSON, [fetch_content] does not
    raise: it logs the error message and returns a list of one record,
    whose text is the message and whose [data] holds the same message
    under ['error']. *)
Theorem fetch_content_failure_returns_error_record
    (self : Tavily.TavilySearchComponent) (s : state) (m : string) :
  Spec.search_fails (network s (sent s) (Tavily.search_request self)) m ->
  fst (Tavily.fetch_content self s)
  = Return [ {| text := Some (VStr m); data := [("error", VStr m)] |} ] /\
  log (snd (Tavily.fetch_content self s)) = (log s ++ [("ERROR", m)])%list.
Proof.
  intros Hfail. now rewrite (fetch_content_failure self s m Hfail).
Qed.

Lemma fetch_content_failure_returns_error_record_witness :
  Spec.search_fails
    (network (Spec.answered Spec.server_error_response)
       (sent (Spec.answered Spec.server_error_response))
       (Tavily.search_request Spec.sample_component))
    "Erro HTTP ocorrido: 500 - Internal Server Error" /\
  fst (Tavily.fetch_content Spec.sample_component
         (Spec.answered Spec.server_error_response))
  = Return [ {| text := Some (VStr "Erro HTTP ocorrido: 500 - Internal Server Error");
                data := [("error",
                          VStr "Erro HTTP ocorrido: 500 - Internal Server Error")] |} ] /\
  log (snd (Tavily.fetch_content Spec.sample_component
              (Spec.answered Spec.server_error_response)))
  = ([] ++ [("ERROR", "Erro HTTP ocorrido: 500 - Internal Server Error")])%list.
Proof.
  split.
  - exact (Spec.status_error Spec.server_error_response eq_refl).
  - apply (fetch_content_failure_returns_error_record Spec.sample_component
             (Spec.answered Spec.server_error_response)).
    exact (Spec.status_error Spec.server_error_response eq_refl).
Defined.

(** C3.  With [search_depth] and [topic] enumeration members, whatever
    exception the search raises inside [_tavily_search] comes out as a
    [ToolException]: for a status error its message is
    ["Erro HTTP: <status> - <body>"], for any other exception
    ["Erro inesperado: "] followed by the exception's text; the message is
    also left in [status]. *)
Theorem tavily_search_failure_raises_tool_exception
    (self : TavilySearch.TavilySearchToolComponent) (query : string)
    (d : TavilySearchDepth) (t : TavilySearchTopic) (max_results : Z)
    (include_images include_answer : bool) (s : state) (e : exn) :
  fst (TavilySearch._tavily_search_try self query d t max_results
         include_images include_answer s) = Raise e ->
  fst (TavilySearch._tavily_search self query (VDepth d) (VTopic t)
         max_results include_images include_answer s)
  = Raise (ToolException
             match e with
             | HTTPStatusError _ r =>
                 "Erro HTTP: " ++ int_str (status_code r) ++ " - " ++ Py.text r
             | _ => "Erro inesperado: " ++ exn_str e
             end) /\
  status (snd (TavilySearch._tavily_search self query (VDepth d) (VTopic t)
                 max_results include_images include_answer s))
  = StatusText
      match e with
      | HTTPStatusError _ r =>
          "Erro HTTP: " ++ int_str (status_code r) ++ " - " ++ Py.text r
      | _ => "Erro inesperado: " ++ exn_str e
      end.
Proof.
  intros Htry.
  destruct (TavilySearch._tavily_search_try self query d t max_results
              include_images include_answer s) as [out s'] eqn:Hrun.
  simpl in Htry. subst out.
  destruct (tavily_search_raises self query d t max_results include_images
              include_answer s e s' Hrun) as (level & logged & Hsearch).
  now rewrite Hsearch.
Qed.

Lemma tavily_search_failure_raises_tool_exception_witness :
  fst (TavilySearch._tavily_search_try
         (Spec.sample_tool (VDepth BASIC) (VTopic NEWS)) "capital de Portugal"
         BASIC NEWS 5 false false (Spec.answered Spec.server_error_response))
  = Raise (HTTPStatusError
             (status_error_message Spec.server_error_response)
             Spec.server_error_response) /\
  fst (TavilySearch._tavily_search
         (Spec.sample_tool (VDepth BASIC) (VTopic NEWS)) "capital de Portugal"
         (VDepth BASIC) (VTopic NEWS) 5 false false
         (Spec.answered Spec.server_error_response))
  = Raise (ToolException "Erro HTTP: 500 - Internal Server Error") /\
  status (snd (TavilySearch._tavily_search
                 (Spec.sample_tool (VDepth BASIC) (VTopic NEWS))
                 "capital de Portugal" (VDepth BASIC) (VTopic NEWS) 5 false
                 false (Spec.answered Spec.server_error_response)))
  = StatusText "Erro HTTP: 500 - Internal Server Error".
Proof.
  split; [reflexivity |].
  apply (tavily_search_failure_raises_tool_exception
           (Spec.sample_tool (VDepth BASIC) (VTopic NEWS))
           "capital de Portugal" BASIC NEWS 5 false false
           (Spec.answered Spec.server_error_response)
           (HTTPStatusError (status_error_message Spec.server_error_response)
              Spec.server_error_response)).
  reflexivity.
Defined.

(** With enumeration members for arguments, [_tavily_search] lets no
    exception other than [ToolException] out. *)
Lemma tavily_search_raises_only_tool_exception
    (self : TavilySearch.TavilySearchToolComponent) (query : string)
    (d : TavilySearchDepth) (t : TavilySearchTopic) (max_results : Z)
    (include_images include_answer : bool) (s : state) (e : exn) :
  fst (TavilySearch._tavily_search self query (VDepth d) (VTopic t)
         max_results include_images include_answer s) = Raise e ->
  exists m, e = ToolException m.
Proof.
  destruct (TavilySearch._tavily_search_try self query d t max_results
              include_images include_answer s) as [[records | e'] s'] eqn:Hrun.
  - unfold TavilySearch._tavily_search, try_except, try_except_else.
    rewrite Hrun. discriminate.
  - destruct (tavily_search_raises self query d t max_results include_images
                include_answer s e' s' Hrun) as (level & logged & Hsearch).
    rewrite Hsearch. simpl. intros H. inversion H. now eexists.
Qed.

(** ** Values that are not enumeration members *)

Lemma depth_of_raises_value_error (value : string) (e : exn) :
  TavilySearch.TavilySearchDepth_of value = Raise e ->
  e = ValueError (repr_str value ++ " is not a valid TavilySearchDepth").
Proof.
  unfold TavilySearch.TavilySearchDepth_of.
  destruct (String.eqb value "basic"); [discriminate |].
  destruct (String.eqb value "advanced"); [discriminate |].
  now inversion 1.
Qed.

Lemma topic_of_raises_value_error (value : string) (e : exn) :
  TavilySearch.TavilySearchTopic_of value = Raise e ->
  e = ValueError (repr_str value ++ " is not a valid TavilySearchTopic").
Proof.
  unfold TavilySearch.TavilySearchTopic_of.
  destruct (String.eqb value "general"); [discriminate |].
  destruct (String.eqb value "news"); [discriminate |].
  now inversion 1.
Qed.

(** Case analysis on a lookup by value. *)
Ltac enum_lookup :=
  match goal with
  | |- context [TavilySearch.TavilySearchDepth_of ?x] =>
      let Hof := fresh "Hof" in
      destruct (TavilySearch.TavilySearchDepth_of x) eqn:Hof;
      [| rewrite (depth_of_raises_value_error _ _ Hof)]
  | |- context [TavilySearch.TavilySearchTopic_of ?x] =>
      let Hof := fresh "Hof" in
      destruct (TavilySearch.TavilySearchTopic_of x) eqn:Hof;
      [| rewrite (topic_of_raises_value_error _ _ Hof)]
  end.

(** What [run_model] comes to, by what its two dropdowns name. *)
Lemma run_model_run (self : TavilySearch.TavilySearchToolComponent)
    (s : state) :
  TavilySearch.run_model self s
  = match Spec.depth_named (TavilySearch.search_depth self) with
    | Raise e =>
        (Return [TavilySearch.error_record
                   ("Valor de profundidade de busca inválido: " ++ exn_str e)],
         {| status := StatusText ("Valor de profundidade de busca inválido: "
                                  ++ exn_str e);
            log := log s; sent := sent s; network := network s |})
    | Return d =>
        match Spec.topic_named (TavilySearch.topic self) with
        | Raise e =>
            (Return [TavilySearch.error_record
                       ("Valor de tópico inválido: " ++ exn_str e)],
             {| status := StatusText ("Valor de tópico inválido: " ++ exn_str e);
                log := log s; sent := sent s; network := network s |})
        | Return t =>
            TavilySearch._tavily_search self (TavilySearch.query self)
              (VDepth d) (VTopic t) (TavilySearch.max_results self)
              (TavilySearch.include_images self)
              (TavilySearch.include_answer self) s
        end
    end.
Proof.
  unfold TavilySearch.run_model, Spec.depth_named, Spec.topic_named.
  unfold try_except, try_except_else.
  destruct (TavilySearch.search_depth self), (TavilySearch.topic self);
    cbv [bind lift ret]; repeat enum_lookup; reflexivity.
Qed.

Lemma tavily_search_rejects_depth
    (self : TavilySearch.TavilySearchToolComponent) (query : string)
    (v w : pyval) (max_results : Z) (include_images include_answer : bool)
    (s : state) :
  Spec.is_depth v = false ->
  TavilySearch._tavily_search self query v w max_results include_images
    include_answer s
  = (Raise (TypeError ("Profundidade de busca inválida: " ++ str v)), s).
Proof. destruct v; simpl; intros H; try discriminate; reflexivity. Qed.

Lemma tavily_search_rejects_topic
    (self : TavilySearch.TavilySearchToolComponent) (query : string)
    (v w : pyval) (max_results : Z) (include_images include_answer : bool)
    (s : state) :
  Spec.is_depth v = true ->
  Spec.is_topic w = false ->
  TavilySearch._tavily_search self query v w max_results include_images
    include_answer s
  = (Raise (TypeError ("Tópico de busca inválido: " ++ str w)), s).
Proof.
  destruct v; simpl; intros Hv; try discriminate.
  destruct w; simpl; intros Hw; try discriminate; reflexivity.
Qed.

(** C4, as amended.  [run_model] raises nothing for a dropdown value that
    names no member: when [search_depth] is neither a [TavilySearchDepth]
    nor, lower-cased, the value of one, or when that holds for [topic]
    (and [search_depth] names a member), it leaves the error message in
    [status] and returns a list of one record whose [data] holds the
    message under ['error'], without sending a request.  [_tavily_search]
    raises [TypeError] when its [search_depth] argument is not a
    [TavilySearchDepth], and when its [topic] argument is not a
    [TavilySearchTopic]. *)
Theorem invalid_enum_value
    (self : TavilySearch.TavilySearchToolComponent) (s : state)
    (query : string) (v w : pyval) (max_results : Z)
    (include_images include_answer : bool) :
  (forall e,
      Spec.depth_named (TavilySearch.search_depth self) = Raise e ->
      TavilySearch.run_model self s
      = (Return [ {| text := None;
                     data := [("error",
                               VStr ("Valor de profundidade de busca inválido: "
                                     ++ exn_str e))] |} ],
         {| status := StatusText ("Valor de profundidade de busca inválido: "
                                  ++ exn_str e);
            log := log s; sent := sent s; network := network s |})) /\
  (forall d e,
      Spec.depth_named (TavilySearch.search_depth self) = Return d ->
      Spec.topic_named (TavilySearch.topic self) = Raise e ->
      TavilySearch.run_model self s
      = (Return [ {| text := None;
                     data := [("error",
                               VStr ("Valor de tópico inválido: "
                                     ++ exn_str e))] |} ],
         {| status := StatusText ("Valor de tópico inválido: " ++ exn_str e);
            log := log s; sent := sent s; network := network s |})) /\
  (Spec.is_depth v = false ->
   TavilySearch._tavily_search self query v w max_results include_images
     include_answer s
   = (Raise (TypeError ("Profundidade de busca inválida: " ++ str v)), s)) /\
  (Spec.is_depth v = true ->
   Spec.is_topic w = false ->
   TavilySearch._tavily_search self query v w max_results include_images
     include_answer s
   = (Raise (TypeError ("Tópico de busca inválido: " ++ str w)), s)).
Proof.
  repeat split.
  - intros e He. rewrite run_model_run, He. reflexivity.
  - intros d e Hd He. rewrite run_model_run, Hd, He. reflexivity.
  - apply tavily_search_rejects_depth.
  - apply tavily_search_rejects_topic.
Qed.

Lemma invalid_enum_value_witness :
  Spec.depth_named (VStr "Deep")
  = Raise (ValueError "'deep' is not a valid TavilySearchDepth") /\
  fst (TavilySearch.run_model (Spec.sample_tool (VStr "Deep") (VStr "News"))
         (Spec.answered Spec.sample_response))
  = Return [ {| text := None;
                data := [("error",
                          VStr "Valor de profundidade de busca inválido: 'deep' is not a valid TavilySearchDepth")] |} ] /\
  Spec.depth_named (VStr "Basic") = Return BASIC /\
  Spec.topic_named (VInt 7)
  = Raise (ValueError "'7' is not a valid TavilySearchTopic") /\
  fst (TavilySearch.run_model (Spec.sample_tool (VStr "Basic") (VInt 7))
         (Spec.answered Spec.sample_response))
  = Return [ {| text := None;
                data := [("error",
                          VStr "Valor de tópico inválido: '7' is not a valid TavilySearchTopic")] |} ] /\
  Spec.is_depth (VStr "basic") = false /\
  fst (TavilySearch._tavily_search
         (Spec.sample_tool (VStr "Deep") (VStr "News")) "q"
         (VStr "basic") (VTopic NEWS) 5 false false
         (Spec.answered Spec.sample_response))
  = Raise (TypeError "Profundidade de busca inválida: basic") /\
  Spec.is_topic VNone = false /\
  fst (TavilySearch._tavily_search
         (Spec.sample_tool (VStr "Basic") (VInt 7)) "q"
         (VDepth BASIC) VNone 5 false false
         (Spec.answered Spec.sample_response))
  = Raise (TypeError "Tópico de busca inválido: None").
Proof.
  pose proof (invalid_enum_value (Spec.sample_tool (VStr "Deep") (VStr "News"))
                (Spec.answered Spec.sample_response) "q" (VStr "basic")
                (VTopic NEWS) 5 false false) as (Hdepth & _ & Hnot_depth & _).
  pose proof (invalid_enum_value (Spec.sample_tool (VStr "Basic") (VInt 7))
                (Spec.answered Spec.sample_response) "q" (VDepth BASIC)
                VNone 5 false false) as (_ & Htopic & _ & Hnot_topic).
  split; [reflexivity |].
  split; [now rewrite (Hdepth _ eq_refl) |].
  split; [reflexivity |]. split; [reflexivity |].
  split; [now rewrite (Htopic _ _ eq_refl eq_refl) |].
  split; [reflexivity |].
  split; [now rewrite (Hnot_depth eq_refl) |].
  split; [reflexivity |].
  now rewrite (Hnot_topic eq_refl eq_refl).
Defined.

(** C4 as stated fails for [run_model]: given the string ["deep"], which
    names no [TavilySearchDepth], it raises no error but returns a list
    with an error record. *)
Lemma run_model_returns_for_invalid_depth :
  TavilySearch.TavilySearchDepth_of (lower (str (VStr "deep")))
  = Raise (ValueError "'deep' is not a valid TavilySearchDepth") /\
  fst (TavilySearch.run_model
         (Spec.sample_tool (VStr "deep") (VTopic GENERAL))
         (Spec.answered Spec.sample_response))
  = Return [ {| text := None;
                data := [("error",
                          VStr "Valor de profundidade de busca inválido: 'deep' is not a valid TavilySearchDepth")] |} ].
Proof. split; reflexivity. Qed.

(** ** [parse_data] *)

Section ParseDataProperties.

Variable row_values :
  ParseDataFrame.DataFrame -> list pyval -> list pyval.

Variable format_ext : string -> dict -> result string.

(** The loop of [parse_data] against formatting all rows at once. *)
Lemma parse_data_loop (cols : list string) (template : string)
    (rows : list (list pyval)) :
  forall (lines : list string) (s : state),
    for_each rows lines
      (fun row lines =>
         bind (lift (format format_ext template
                       (ParseDataFrame.to_dict cols row)))
           (fun text_line => ret (lines ++ [text_line])%list)) s
    = match format_all format_ext template
              (map (ParseDataFrame.to_dict cols) rows) with
      | Return formatted => (Return (lines ++ formatted)%list, s)
      | Raise e => (Raise e, s)
      end.
Proof.
  induction rows as [| row rows' IH]; intros lines s; simpl.
  - now rewrite app_nil_r.
  - unfold bind at 1. unfold bind at 1. unfold lift at 1.
    destruct (format format_ext template (ParseDataFrame.to_dict cols row))
      as [line | e]; [| reflexivity].
    unfold ret at 1. rewrite IH.
    destruct (format_all format_ext template
                (map (ParseDataFrame.to_dict cols) rows'))
      as [formatted | e]; [| reflexivity].
    now rewrite <- app_assoc.
Qed.

(** [parse_data] against formatting all rows at once. *)
Lemma parse_data_run (self : ParseDataFrame.ParseDataFrameComponent)
    (s : state) :
  ParseDataFrame.parse_data row_values format_ext self s
  = match format_all format_ext
            (ParseDataFrame.or_default (ParseDataFrame.template self) "{text}")
            (map (ParseDataFrame.to_dict
                    (ParseDataFrame.columns (ParseDataFrame.df self)))
               (ParseDataFrame.iterrows row_values (ParseDataFrame.df self)))
    with
    | Return lines =>
        let result_string :=
          String.concat
            (ParseDataFrame.or_default (ParseDataFrame.sep self)
               ParseDataFrame.newline) lines in
        (Return {| message_text := result_string |},
         {| status := StatusText result_string;
            log := log s; sent := sent s; network := network s |})
    | Raise e => (Raise e, s)
    end.
Proof.
  unfold ParseDataFrame.parse_data, ParseDataFrame._clean_args.
  unfold bind at 1.
  rewrite parse_data_loop.
  destruct (format_all format_ext _ _) as [lines | e]; reflexivity.
Qed.

(** C5, as amended.  [parse_data] formats the template (["{text}"] when
    none is given) with the column-name-to-value dictionary of each row
    as [iterrows] yields it, in row order.  When every row formats, it
    returns a single message whose text is the formatted rows joined by
    the separator (a newline when none is given), and leaves that text in
    [status]; when formatting a row raises, as it does for a template
    that names a missing column, [parse_data] raises that error and
    returns no message. *)
Theorem parse_data_joins_formatted_rows
    (self : ParseDataFrame.ParseDataFrameComponent) (s : state) :
  let template :=
    ParseDataFrame.or_default (ParseDataFrame.template self) "{text}" in
  let sep :=
    ParseDataFrame.or_default (ParseDataFrame.sep self)
      ParseDataFrame.newline in
  let row_dicts :=
    map (ParseDataFrame.to_dict
           (ParseDataFrame.columns (ParseDataFrame.df self)))
      (ParseDataFrame.iterrows row_values (ParseDataFrame.df self)) in
  ParseDataFrame.parse_data row_values format_ext self s
  = match format_all format_ext template row_dicts with
    | Return lines =>
        (Return {| message_text := String.concat sep lines |},
         {| status := StatusText (String.concat sep lines);
            log := log s; sent := sent s; network := network s |})
    | Raise e => (Raise e, s)
    end.
Proof.
  cbv zeta. unfold ParseDataFrame.parse_data, ParseDataFrame._clean_args.
  unfold bind at 1.
  rewrite parse_data_loop.
  destruct (format_all format_ext _ _) as [lines | e]; reflexivity.
Qed.

(** C9.  A template that is [None] or empty stands for ["{text}"], and a
    separator that is [None] or empty stands for a newline.
    [_clean_args] returns ["{text}"] and the newline for them, and any
    other template or separator as given; and [parse_data] on such inputs
    is [parse_data] with those defaults, which formats each row with
    ["{text}"] and joins the lines with a newline. *)
Theorem parse_data_defaults (dataframe : ParseDataFrame.DataFrame)
    (template sep : option string) (c : ascii) (rest : string) (s : state) :
  let component t p :=
    {| ParseDataFrame.df := dataframe;
       ParseDataFrame.template := t;
       ParseDataFrame.sep := p |} in
  let parse t p :=
    ParseDataFrame.parse_data row_values format_ext (component t p) s in
  let formatted t p :=
    match format_all format_ext t
            (map (ParseDataFrame.to_dict (ParseDataFrame.columns dataframe))
               (ParseDataFrame.iterrows row_values dataframe)) with
    | Return lines =>
        (Return {| message_text := String.concat p lines |},
         {| status := StatusText (String.concat p lines);
            log := log s; sent := sent s; network := network s |})
    | Raise e => (Raise e, s)
    end in
  (parse None sep = parse (Some "{text}") sep /\
   parse (Some EmptyString) sep = parse (Some "{text}") sep /\
   parse template None = parse template (Some ParseDataFrame.newline) /\
   parse template (Some EmptyString)
   = parse template (Some ParseDataFrame.newline)) /\
  (ParseDataFrame._clean_args (component None None)
   = (dataframe, "{text}", str_of_char "010"%char) /\
   ParseDataFrame._clean_args (component (Some EmptyString) (Some EmptyString))
   = (dataframe, "{text}", str_of_char "010"%char) /\
   ParseDataFrame._clean_args
     (component (Some (String c rest)) (Some (String c rest)))
   = (dataframe, String c rest, String c rest)) /\
  (parse None None = formatted "{text}" (str_of_char "010"%char) /\
   parse (Some EmptyString) (Some EmptyString)
   = formatted "{text}" (str_of_char "010"%char) /\
   parse None (Some (String c rest)) = formatted "{text}" (String c rest) /\
   parse (Some EmptyString) (Some (String c rest))
   = formatted "{text}" (String c rest) /\
   parse (Some (String c rest)) None
   = formatted (String c rest) (str_of_char "010"%char) /\
   parse (Some (String c rest)) (Some EmptyString)
   = formatted (String c rest) (str_of_char "010"%char)).
Proof.
  cbv zeta. split; [repeat split |]. split; [repeat split |].
  repeat split; rewrite parse_data_run; reflexivity.
Qed.

End ParseDataProperties.

(** C5 as stated fails: on a DataFrame with the columns [name] and [age]
    and the default template ["{text}"], formatting the first row raises
    [KeyError], and [parse_data] produces no message. *)
Lemma parse_data_raises_for_missing_column :
  fst (ParseDataFrame.parse_data ParseDataFrame.as_stored plain_fields_only
         {| ParseDataFrame.df := Spec.sample_frame;
            ParseDataFrame.template := None;
            ParseDataFrame.sep := None |}
         (Spec.fresh (Spec.answers (PostFails "unreachable"))))
  = Raise (KeyError "text").
Proof. reflexivity. Qed.

(** ** [build_document_transformer] *)

(** C7.  [build_document_transformer] returns a [LinkExtractorTransformer]
    over exactly one extractor, the document extractor of an
    [HtmlLinkExtractor] whose link kind is the component's [kind] and
    whose fragment-dropping flag is the component's [drop_fragments]. *)
Theorem build_document_transformer_wraps_one_extractor
    (self : HtmlLinkExtractor.HtmlLinkExtractorComponent) :
  exists extractor,
    HtmlLinkExtractor.build_document_transformer self
    = HtmlLinkExtractor.LinkExtractorTransformer
        [HtmlLinkExtractor.as_document_extractor extractor] /\
    HtmlLinkExtractor.extractor_kind extractor = HtmlLinkExtractor.kind self /\
    HtmlLinkExtractor.extractor_drop_fragments extractor
    = HtmlLinkExtractor.drop_fragments self.
Proof. eexists. repeat split. Qed.

(** ** [fetch_content_text] *)

Lemma ensures_ret {A : Type} (a : A) (P : A -> Prop) :
  P a -> Spec.ensures (ret a) P.
Proof. intros Ha s a' s' H. inversion H; now subst. Qed.

Section Ensures.

Context {A B : Type}.

Lemma ensures_bind (m : M A) (k : A -> M B) (Q : A -> Prop)
    (P : B -> Prop) :
  Spec.ensures m Q ->
  (forall a, Q a -> Spec.ensures (k a) P) ->
  Spec.ensures (bind m k) P.
Proof.
  intros Hm Hk s b s' H. unfold bind in H.
  destruct (m s) as [[a | e] s1] eqn:Hrun; [| discriminate].
  exact (Hk a (Hm s a s1 Hrun) s1 b s' H).
Qed.

Lemma ensures_try_except_else (body : M A) (handler : exn -> option (M B))
    (orelse : A -> M B) (Q : A -> Prop) (P : B -> Prop) :
  Spec.ensures body Q ->
  (forall e h, handler e = Some h -> Spec.ensures h P) ->
  (forall a, Q a -> Spec.ensures (orelse a) P) ->
  Spec.ensures (try_except_else body handler orelse) P.
Proof.
  intros Hb Hh Ho s b s' H. unfold try_except_else in H.
  destruct (body s) as [[a | e] s1] eqn:Hrun.
  - exact (Ho a (Hb s a s1 Hrun) s1 b s' H).
  - destruct (handler e) as [h |] eqn:He; [| discriminate].
    exact (Hh e h He s1 b s' H).
Qed.

End Ensures.

Lemma ensures_for_each {A B : Type} (P : B -> Prop) (body : A -> B -> M B) :
  (forall x acc, P acc -> Spec.ensures (body x acc) P) ->
  forall xs acc, P acc -> Spec.ensures (for_each xs acc body) P.
Proof.
  intros Hbody. induction xs as [| x xs IH]; intros acc Hacc; simpl.
  - now apply ensures_ret.
  - apply (ensures_bind _ _ P); [now apply Hbody | exact IH].
Qed.

Lemma ensures_true {A : Type} (m : M A) : Spec.ensures m (fun _ => True).
Proof. now intros s a s' _. Qed.

Lemma has_text_snoc (acc : list Data) (t : pyval) (d : dict) :
  Forall Spec.has_text acc ->
  Forall Spec.has_text (acc ++ [ {| text := Some t; data := d |} ])%list.
Proof.
  intros Hacc. apply Forall_app. split; [exact Hacc |].
  constructor; [now exists t | constructor].
Qed.

(** Steps of a proof that the records returned have a text. *)
Ltac with_text :=
  repeat first
    [ progress intros
    | apply ensures_ret
    | apply has_text_snoc
    | assumption
    | match goal with
      | |- Spec.ensures (if ?b then _ else _) _ => destruct b
      | |- Spec.ensures (bind (lift _) _) _ =>
          apply (ensures_bind _ _ (fun _ => True)); [apply ensures_true |]
      | |- Spec.ensures (bind (set_status _) _) _ =>
          apply (ensures_bind _ _ (fun _ => True)); [apply ensures_true |]
      | |- Spec.ensures (bind (logger _ _) _) _ =>
          apply (ensures_bind _ _ (fun _ => True)); [apply ensures_true |]
      end ].

Lemma result_record_has_text (result : pyval) (acc : list Data) :
  Forall Spec.has_text acc ->
  Spec.ensures (Tavily.result_record result acc) (Forall Spec.has_text).
Proof. intros Hacc. unfold Tavily.result_record. with_text. Qed.

Lemma fetch_content_collect_has_text (self : Tavily.TavilySearchComponent)
    (v : pyval) :
  Spec.ensures (Tavily.fetch_content_collect self v) (Forall Spec.has_text).
Proof.
  unfold Tavily.fetch_content_collect.
  apply (ensures_bind _ _ (Forall Spec.has_text)).
  - with_text; constructor.
  - intros acc Hacc. with_text.
    apply (ensures_bind _ _ (Forall Spec.has_text)).
    + apply ensures_for_each; [| exact Hacc].
      intros x acc' Hacc'. now apply result_record_has_text.
    + with_text.
Qed.

(** Every record [fetch_content] returns was built with a text. *)
Lemma fetch_content_has_text (self : Tavily.TavilySearchComponent) :
  Spec.ensures (Tavily.fetch_content self) (Forall Spec.has_text).
Proof.
  unfold Tavily.fetch_content.
  apply (ensures_try_except_else _ _ _ (Forall Spec.has_text)).
  - unfold Tavily.fetch_content_try.
    apply (ensures_bind _ _ (fun _ => True)); [apply ensures_true |].
    intros r _.
    apply (ensures_bind _ _ (fun _ => True)); [apply ensures_true |].
    intros _ _.
    apply (ensures_bind _ _ (fun _ => True)); [apply ensures_true |].
    intros v _. apply fetch_content_collect_has_text.
  - intros e h He. destruct e; simpl in He; inversion He; subst;
      with_text; (constructor; [eexists; reflexivity | constructor]).
  - intros records Hrecords. with_text.
Qed.

Lemma string_app_nil_r (x : string) : x ++ EmptyString = x.
Proof. induction x as [| c x IH]; simpl; [reflexivity | now rewrite IH]. Qed.

Lemma dict_get_app_some {A : Type} (d d' : list (string * A)) (k : string) :
  (exists v, dict_get d' k = Some v) ->
  exists v, dict_get (d ++ d') k = Some v.
Proof.
  intros Hd'. induction d as [| [k' v'] d IH]; simpl; [exact Hd' |].
  destruct (String.eqb k' k); [now exists v' | exact IH].
Qed.

Section Rendering.

Variable format_ext : string -> dict -> result string.

(** The template ["{text}"] shows the value that the key [text] has. *)
Lemma format_text_field (kwargs : dict) (v : pyval) :
  dict_get kwargs "text" = Some v ->
  format format_ext "{text}" kwargs = Return (str v).
Proof.
  intros Hget. unfold format. simpl. unfold str_of_char.
  rewrite Hget. simpl.
  now rewrite string_app_nil_r.
Qed.

Lemma format_shown_text (r : Data) :
  Spec.has_text r ->
  format format_ext "{text}" (record_fields r) = Return (Spec.shown_text r).
Proof.
  intros [t Ht]. unfold Spec.shown_text.
  assert (exists v, dict_get (record_fields r) "text" = Some v) as [v Hv].
  { unfold record_fields. rewrite Ht. apply dict_get_app_some.
    now exists t. }
  rewrite Hv. now apply format_text_field.
Qed.

Lemma data_to_text_shown_text (records : list Data) :
  Forall Spec.has_text records ->
  data_to_text format_ext "{text}" records
  = Return (String.concat (str_of_char "010"%char)
              (map Spec.shown_text records)).
Proof.
  intros Hall. unfold data_to_text.
  assert (format_all format_ext "{text}" (map record_fields records)
          = Return (map Spec.shown_text records)) as ->; [| reflexivity].
  induction Hall as [| r records Hr _ IH]; [reflexivity |].
  cbn [map format_all]. now rewrite (format_shown_text r Hr), IH.
Qed.

(** C10, as amended.  In every state in which [fetch_content] returns a
    list of records, [fetch_content_text] returns a message whose text is
    the ["{text}"] rendering of that list, which exists; when the search
    fails with a request error, a status outside 2xx or a body that is not
    JSON, [fetch_content_text] does not raise but returns a message whose
    text is the error message; and when [fetch_content] raises,
    [fetch_content_text] raises the same exception. *)
Theorem fetch_content_text_renders_fetch_content
    (self : Tavily.TavilySearchComponent) (s : state) :
  (forall records,
      fst (Tavily.fetch_content self s) = Return records ->
      exists rendering,
        data_to_text format_ext "{text}" records = Return rendering /\
        fst (Tavily.fetch_content_text format_ext self s)
        = Return {| message_text := rendering |}) /\
  (forall m,
      Spec.search_fails
        (network s (sent s) (Tavily.search_request self)) m ->
      fst (Tavily.fetch_content_text format_ext self s)
      = Return {| message_text := m |}) /\
  (forall e,
      fst (Tavily.fetch_content self s) = Raise e ->
      fst (Tavily.fetch_content_text format_ext self s) = Raise e).
Proof.
  split; [| split].
  - intros records Hret.
    destruct (Tavily.fetch_content self s) as [out s'] eqn:Hrun.
    simpl in Hret. subst out.
    pose proof (fetch_content_has_text self s records s' Hrun) as Hall.
    eexists. split; [now apply data_to_text_shown_text |].
    unfold Tavily.fetch_content_text, bind at 1. rewrite Hrun.
    unfold bind at 1, lift at 1.
    now rewrite (data_to_text_shown_text records Hall).
  - intros m Hfail.
    unfold Tavily.fetch_content_text, bind at 1.
    rewrite (fetch_content_failure self s m Hfail).
    unfold bind at 1, lift at 1.
    rewrite data_to_text_shown_text.
    + reflexivity.
    + constructor; [now exists (VStr m) | constructor].
  - intros e Hraise.
    destruct (Tavily.fetch_content self s) as [out s'] eqn:Hrun.
    simpl in Hraise. subst out.
    unfold Tavily.fetch_content_text, bind at 1. now rewrite Hrun.
Qed.

End Rendering.

Lemma fetch_content_text_renders_fetch_content_witness :
  (fst (Tavily.fetch_content Spec.sample_component
          (Spec.answered Spec.sample_response))
   = Return (Spec.fetch_content_records Spec.sample_component
               Spec.sample_body Spec.sample_entries) /\
   exists rendering,
     data_to_text plain_fields_only "{text}"
       (Spec.fetch_content_records Spec.sample_component
          Spec.sample_body Spec.sample_entries)
     = Return rendering /\
     fst (Tavily.fetch_content_text plain_fields_only Spec.sample_component
            (Spec.answered Spec.sample_response))
     = Return {| message_text := rendering |}) /\
  (Spec.search_fails
     (network (Spec.answered Spec.not_json_response)
        (sent (Spec.answered Spec.not_json_response))
        (Tavily.search_request Spec.sample_component))
     "Formato de resposta inválido: Expecting value: line 1 column 1 (char 0)" /\
   fst (Tavily.fetch_content_text plain_fields_only Spec.sample_component
          (Spec.answered Spec.not_json_response))
   = Return {| message_text :=
                 "Formato de resposta inválido: Expecting value: line 1 column 1 (char 0)" |}).
Proof.
  split.
  - split; [reflexivity |].
    apply (proj1 (fetch_content_text_renders_fetch_content plain_fields_only
                    Spec.sample_component
                    (Spec.answered Spec.sample_response))).
    reflexivity.
  - split.
    + exact (Spec.invalid_json Spec.not_json_response _ eq_refl eq_refl).
    + apply (proj1 (proj2 (fetch_content_text_renders_fetch_content
                             plain_fields_only Spec.sample_component
                             (Spec.answered Spec.not_json_response)))).
      exact (Spec.invalid_json Spec.not_json_response _ eq_refl eq_refl).
Defined.

(** C10 as stated fails: a 2xx response whose ['results'] holds [null] in
    place of an entry makes [fetch_content] raise [AttributeError], which
    it does not catch, and [fetch_content_text] raises it too instead of
    returning a message. *)
Lemma fetch_content_text_raises_on_null_entry :
  is_success Spec.null_entry_response = true /\
  json_body Spec.null_entry_response
  = inr (VDict [("results", VList [VNone])]) /\
  fst (Tavily.fetch_content_text plain_fields_only Spec.sample_component
         (Spec.answered Spec.null_entry_response))
  = Raise (AttributeError "'NoneType' object has no attribute 'get'").
Proof. repeat split. Qed.

(** ** The components on the sample inputs *)

Example parse_data_sample :
  fst (ParseDataFrame.parse_data ParseDataFrame.as_stored plain_fields_only
         {| ParseDataFrame.df := Spec.sample_frame;
            ParseDataFrame.template := Some "{name} ({age}) {{ok}}";
            ParseDataFrame.sep := Some ", " |}
         (Spec.fresh (Spec.answers (PostFails "unreachable"))))
  = Return {| message_text := "Ana (31) {ok}, Rui (27) {ok}" |}.
Proof. reflexivity. Qed.

Example fetch_content_sample :
  fst (Tavily.fetch_content Spec.sample_component
         (Spec.answered Spec.sample_response))
  = Return
      [ {| text := Some (VStr "Lisboa"); data := [] |};
        {| text := Some (VStr "Lisboa");
           data := [("title", VStr "Portugal");
                    ("url", VStr "https://pt.example");
                    ("content", VStr "Lisboa");
                    ("score", VFloat "0.98")] |};
        {| text := Some (VStr EmptyString);
           data := [("title", VStr "Capitais"); ("url", VNone);
                    ("content", VStr EmptyString); ("score", VNone)] |};
        {| text := Some (VStr "Imagens encontradas");
           data := [("images", VList [VStr "https://img.example/1.png"])] |} ].
Proof. reflexivity. Qed.

Example fetch_content_text_sample :
  fst (Tavily.fetch_content_text plain_fields_only Spec.sample_component
         (Spec.answered Spec.sample_response))
  = Return {| message_text :=
                String.concat (str_of_char "010"%char)
                  ["Lisboa"; "Lisboa"; EmptyString; "Imagens encontradas"] |}.
Proof. reflexivity. Qed.

Example run_model_sample :
  TavilySearch.run_model (Spec.sample_tool (VStr "Advanced") (VStr "NEWS"))
    (Spec.answered Spec.sample_response)
  = TavilySearch._tavily_search
      (Spec.sample_tool (VStr "Advanced") (VStr "NEWS"))
      "capital de Portugal" (VDepth ADVANCED) (VTopic NEWS) 5 true true
      (Spec.answered Spec.sample_response).
Proof. reflexivity. Qed.

Example run_model_request_sample :
  sent (snd (TavilySearch.run_model
               (Spec.sample_tool (VDepth BASIC) (VStr "general"))
               (Spec.answered Spec.server_error_response)))
  = [ {| url := "https://api.tavily.com/search";
         json := [("api_key", VStr "tvly-key");
                  ("query", VStr "capital de Portugal");
                  ("search_depth", VStr "basic");
                  ("topic", VStr "general");
                  ("max_results", VInt 5);
                  ("include_images", VBool true);
                  ("include_answer", VBool true)];
         headers := [("content-type", "application/json");
                     ("accept", "application/json")] |} ].
Proof. reflexivity. Qed.

(** * Further properties *)

(** ** Steps that leave the state alone *)

Lemma quiet_ret {A : Type} (a : A) : Spec.quiet_step (ret a).
Proof. now intros s. Qed.

Lemma quiet_raise {A : Type} (e : exn) : Spec.quiet_step (@raise A e).
Proof. now intros s. Qed.

Lemma quiet_lift {A : Type} (r : result A) : Spec.quiet_step (lift r).
Proof. now intros s. Qed.

Lemma quiet_bind {A B : Type} (m : M A) (k : A -> M B) :
  Spec.quiet_step m ->
  (forall a, Spec.quiet_step (k a)) ->
  Spec.quiet_step (bind m k).
Proof.
  intros Hm Hk s. unfold bind. specialize (Hm s).
  destruct (m s) as [[a | e] s1]; simpl in *; subst s1; [apply Hk | reflexivity].
Qed.

Lemma quiet_for_each {A B : Type} (body : A -> B -> M B) :
  (forall x acc, Spec.quiet_step (body x acc)) ->
  forall xs acc, Spec.quiet_step (for_each xs acc body).
Proof.
  intros Hbody. induction xs as [| x xs IH]; intros acc; simpl.
  - apply quiet_ret.
  - apply quiet_bind; [apply Hbody | intros acc'; apply IH].
Qed.

Lemma quiet_comprehension {A B : Type} (f : A -> M B) :
  (forall x, Spec.quiet_step (f x)) ->
  forall xs, Spec.quiet_step (comprehension f xs).
Proof.
  intros Hf. induction xs as [| x xs IH]; simpl.
  - apply quiet_ret.
  - apply quiet_bind; [apply Hf |]. intros y.
    apply quiet_bind; [exact IH | intros ys; apply quiet_ret].
Qed.

Lemma quiet_raise_for_status (r : response) :
  Spec.quiet_step (raise_for_status r).
Proof.
  unfold raise_for_status. destruct (is_success r);
    [apply quiet_ret | apply quiet_raise].
Qed.

Lemma quiet_response_json (r : response) : Spec.quiet_step (response_json r).
Proof.
  unfold response_json. destruct (json_body r);
    [apply quiet_raise | apply quiet_ret].
Qed.

(** Steps of a proof that a computation leaves the state alone. *)
Ltac still :=
  repeat first
    [ progress intros
    | apply quiet_bind
    | apply quiet_for_each
    | apply quiet_comprehension
    | apply quiet_ret
    | apply quiet_raise
    | apply quiet_lift
    | apply quiet_raise_for_status
    | apply quiet_response_json
    | match goal with
      | |- Spec.quiet_step (if ?b then _ else _) => destruct b
      end ].

Lemma quiet_fetch_content_collect (self : Tavily.TavilySearchComponent)
    (v : pyval) :
  Spec.quiet_step (Tavily.fetch_content_collect self v).
Proof. unfold Tavily.fetch_content_collect. still. Qed.

Lemma quiet_tavily_search_collect (include_images include_answer : bool)
    (v : pyval) :
  Spec.quiet_step
    (TavilySearch._tavily_search_collect include_images include_answer v).
Proof. unfold TavilySearch._tavily_search_collect. still. Qed.

(** After a POST and steps that leave the state alone, the state differs
    from the initial one by the request sent. *)
Lemma post_then_quiet {A : Type} (u : string) (payload : dict)
    (hs : list (string * string)) (k : response -> M A) (s : state) :
  (forall r, Spec.quiet_step (k r)) ->
  snd (bind (post u payload hs) k s)
  = Spec.after_request s {| url := u; json := payload; headers := hs |}.
Proof.
  intros Hk. unfold bind, post.
  destruct (network s (sent s) _) as [m | r]; [reflexivity |].
  apply Hk.
Qed.

Lemma fetch_content_try_state (self : Tavily.TavilySearchComponent)
    (s : state) :
  snd (Tavily.fetch_content_try self s)
  = Spec.after_request s (Tavily.search_request self).
Proof.
  unfold Tavily.fetch_content_try. apply post_then_quiet.
  intros r. still.
Qed.

(** ** Outcomes of [fetch_content] *)

(** ** Exceptions that come out *)

Lemma raises_only_bind {A B : Type} (m : M A) (k : A -> M B)
    (P : exn -> Prop) :
  Spec.raises_only m P ->
  (forall a, Spec.raises_only (k a) P) ->
  Spec.raises_only (bind m k) P.
Proof.
  intros Hm Hk s e s' H. unfold bind in H.
  destruct (m s) as [[a | e0] s1] eqn:Hrun.
  - exact (Hk a s1 e s' H).
  - inversion H; subst. exact (Hm s e s' Hrun).
Qed.

Lemma raises_only_for_each {A B : Type} (body : A -> B -> M B)
    (P : exn -> Prop) :
  (forall x acc, Spec.raises_only (body x acc) P) ->
  forall xs acc, Spec.raises_only (for_each xs acc body) P.
Proof.
  intros Hbody. induction xs as [| x xs IH]; intros acc; simpl.
  - intros s e s' H. discriminate.
  - apply raises_only_bind; [apply Hbody | intros acc'; apply IH].
Qed.

Lemma iter_raises (v : pyval) (e : exn) :
  iter v = Raise e -> Spec.is_lookup_error e = true.
Proof. destruct v; simpl; intros H; inversion H; reflexivity. Qed.

Lemma result_record_raises (result : pyval) (acc : list Data) :
  Spec.raises_only (Tavily.result_record result acc)
    (fun e => Spec.is_lookup_error e = true).
Proof.
  intros s e s' H. destruct result;
    cbv [Tavily.result_record bind lift get] in H; inversion H; reflexivity.
Qed.

Lemma fetch_content_collect_raises (self : Tavily.TavilySearchComponent)
    (v : pyval) :
  Spec.raises_only (Tavily.fetch_content_collect self v)
    (fun e => Spec.is_lookup_error e = true).
Proof.
  intros s e s' H. unfold Tavily.fetch_content_collect in H.
  destruct v;
    try (destruct (Tavily.include_answer self);
         cbv [bind lift get ret] in H; inversion H; reflexivity).
  unfold bind at 1 in H. rewrite included_run in H.
  unfold bind at 1, lift at 1, get at 1 in H.
  unfold bind at 1, lift at 1 in H.
  destruct (iter _) as [l | e0] eqn:Hiter.
  - unfold bind at 1 in H.
    destruct (for_each l _ Tavily.result_record s) as [[acc | e0] s1] eqn:Hfor.
    + rewrite included_run in H. discriminate.
    + inversion H; subst.
      exact (raises_only_for_each _ _ result_record_raises l _ s e s' Hfor).
  - inversion H; subst. exact (iter_raises _ _ Hiter).
Qed.

(** X1.  What [fetch_content] leaves behind, by what the POST came to.
    After a failure it catches (request error, status outside 2xx, body
    that is not JSON) it returns one error record, has logged the message
    once at level ERROR, and [status] is as it was before the call: the
    error list is not stored.  After a 2xx response whose body decodes,
    [status] holds exactly the list returned and nothing was logged when
    it returns, and [status] and the log are as they were when it
    raises. *)
Theorem fetch_content_status_and_log
    (self : Tavily.TavilySearchComponent) (s : state) :
  (forall m,
      Spec.search_fails (network s (sent s) (Tavily.search_request self)) m ->
      Tavily.fetch_content self s
      = (Return [ {| text := Some (VStr m); data := [("error", VStr m)] |} ],
         {| status := status s;
            log := (log s ++ [("ERROR", m)])%list;
            sent := (sent s ++ [Tavily.search_request self])%list;
            network := network s |})) /\
  (forall r v,
      network s (sent s) (Tavily.search_request self) = PostResponds r ->
      is_success r = true ->
      json_body r = inr v ->
      match Tavily.fetch_content self s with
      | (Return records, s') =>
          s' = {| status := StatusData records;
                  log := log s;
                  sent := (sent s ++ [Tavily.search_request self])%list;
                  network := network s |}
      | (Raise _, s') =>
          s' = {| status := status s;
                  log := log s;
                  sent := (sent s ++ [Tavily.search_request self])%list;
                  network := network s |}
      end).
Proof.
  split.
  - intros m Hfail. exact (fetch_content_failure self s m Hfail).
  - intros r v Hnet Hok Hjson.
    unfold Tavily.fetch_content, try_except_else.
    rewrite (fetch_content_try_decoded self s r v Hnet Hok Hjson).
    pose proof (quiet_fetch_content_collect self v
                  (Spec.after_request s (Tavily.search_request self)))
      as Hquiet.
    pose proof (fetch_content_collect_raises self v
                  (Spec.after_request s (Tavily.search_request self)))
      as Hraises.
    destruct (Tavily.fetch_content_collect self v _) as [[records | e] s1];
      simpl in Hquiet; subst s1; [reflexivity |].
    specialize (Hraises e _ eq_refl).
    destruct e; try discriminate; reflexivity.
Qed.

Lemma fetch_content_status_and_log_witness :
  (Spec.search_fails
     (network (Spec.answered Spec.not_json_response)
        (sent (Spec.answered Spec.not_json_response))
        (Tavily.search_request Spec.sample_component))
     "Formato de resposta inválido: Expecting value: line 1 column 1 (char 0)" /\
   status (snd (Tavily.fetch_content Spec.sample_component
                  (Spec.answered Spec.not_json_response)))
   = StatusUnset) /\
  (network (Spec.answered Spec.sample_response)
     (sent (Spec.answered Spec.sample_response))
     (Tavily.search_request Spec.sample_component)
   = PostResponds Spec.sample_response /\
   is_success Spec.sample_response = true /\
   json_body Spec.sample_response = inr (VDict Spec.sample_body) /\
   match Tavily.fetch_content Spec.sample_component
           (Spec.answered Spec.sample_response) with
   | (Return records, s') =>
       s' = {| status := StatusData records;
               log := log (Spec.answered Spec.sample_response);
               sent := (sent (Spec.answered Spec.sample_response)
                        ++ [Tavily.search_request Spec.sample_component])%list;
               network := network (Spec.answered Spec.sample_response) |}
   | (Raise _, s') =>
       s' = {| status := status (Spec.answered Spec.sample_response);
               log := log (Spec.answered Spec.sample_response);
               sent := (sent (Spec.answered Spec.sample_response)
                        ++ [Tavily.search_request Spec.sample_component])%list;
               network := network (Spec.answered Spec.sample_response) |}
   end).
Proof.
  split.
  - split.
    + exact (Spec.invalid_json Spec.not_json_response _ eq_refl eq_refl).
    + rewrite (proj1 (fetch_content_status_and_log Spec.sample_component
                        (Spec.answered Spec.not_json_response)) _
                 (Spec.invalid_json Spec.not_json_response _ eq_refl eq_refl)).
      reflexivity.
  - split; [reflexivity |]. split; [reflexivity |]. split; [reflexivity |].
    exact (proj2 (fetch_content_status_and_log Spec.sample_component
                    (Spec.answered Spec.sample_response))
             Spec.sample_response (VDict Spec.sample_body)
             eq_refl eq_refl eq_refl).
Defined.

(** X2.  [fetch_content] never lets out an exception of a class it
    catches, nor a [KeyError]: whatever the network answers, no
    [HTTPStatusError], [RequestError] or [ValueError] comes out of it,
    and the subscripts [search_results["answer"]] and
    [search_results["images"]] cannot fail.  What does come out are the
    errors of lookups on a decoded document of an unexpected shape. *)
Theorem fetch_content_never_raises_what_it_catches
    (self : Tavily.TavilySearchComponent) (s : state) (e : exn) :
  fst (Tavily.fetch_content self s) = Raise e ->
  match e with
  | HTTPStatusError _ _ | RequestError _ | ValueError _ | KeyError _ => False
  | _ => True
  end.
Proof.
  unfold Tavily.fetch_content, try_except_else.
  destruct (Tavily.fetch_content_try self s) as [[records | e0] s1] eqn:Hrun;
    [discriminate |].
  assert (Tavily.fetch_content_except e0 = None ->
          Spec.is_lookup_error e0 = true) as Hshape.
  { intros Hnone. revert Hrun. unfold Tavily.fetch_content_try.
    unfold bind at 1, post.
    destruct (network s (sent s) _) as [m | r].
    - intros H. inversion H; subst. discriminate.
    - unfold bind at 1, raise_for_status.
      destruct (is_success r); [| intros H; inversion H; subst; discriminate].
      unfold ret at 1, bind at 1, response_json.
      destruct (json_body r) as [m | v];
        [intros H; inversion H; subst; discriminate |].
      unfold ret at 1. apply fetch_content_collect_raises. }
  destruct (Tavily.fetch_content_except e0) as [h |] eqn:Hexc.
  - destruct e0; simpl in Hexc; inversion Hexc; subst; discriminate.
  - simpl. intros H. inversion H; subst.
    specialize (Hshape eq_refl).
    destruct e; try discriminate; exact I.
Qed.

Lemma fetch_content_never_raises_what_it_catches_witness :
  fst (Tavily.fetch_content Spec.sample_component
         (Spec.answered Spec.null_results_response))
  = Raise (TypeError "'NoneType' object is not iterable") /\
  match TypeError "'NoneType' object is not iterable" with
  | HTTPStatusError _ _ | RequestError _ | ValueError _ | KeyError _ => False
  | _ => True
  end.
Proof.
  split; [reflexivity |].
  exact (fetch_content_never_raises_what_it_catches Spec.sample_component
           (Spec.answered Spec.null_results_response)
           (TypeError "'NoneType' object is not iterable") eq_refl).
Defined.

(** ** Outcomes of [_tavily_search] and [run_model] *)

Lemma tavily_search_try_state
    (self : TavilySearch.TavilySearchToolComponent) (query : string)
    (d : TavilySearchDepth) (t : TavilySearchTopic) (max_results : Z)
    (include_images include_answer : bool) (s : state) :
  match TavilySearch._tavily_search_try self query d t max_results
          include_images include_answer s with
  | (Return records, s') =>
      s' = {| status := StatusData records; log := log s;
              sent := (sent s ++ [TavilySearch.search_request self query d t
                                    max_results include_images
                                    include_answer])%list;
              network := network s |}
  | (Raise _, s') =>
      s' = Spec.after_request s
             (TavilySearch.search_request self query d t max_results
                include_images include_answer)
  end.
Proof.
  unfold TavilySearch._tavily_search_try, bind at 1, post.
  destruct (network s (sent s) _) as [m | r]; [reflexivity |].
  unfold bind at 1, raise_for_status.
  destruct (is_success r); [| reflexivity].
  unfold ret at 1, bind at 1, response_json.
  destruct (json_body r) as [m | v]; [reflexivity |].
  unfold ret at 1, bind at 1.
  match goal with
  | |- context [TavilySearch._tavily_search_collect _ _ v ?s1] =>
      pose proof (quiet_tavily_search_collect include_images include_answer
                    v s1) as Hquiet;
      destruct (TavilySearch._tavily_search_collect include_images
                  include_answer v s1) as [[records | e] s2]
  end; simpl in Hquiet; subst s2; reflexivity.
Qed.

(** X3.  What [_tavily_search], called with enumeration members, leaves
    behind.  When it returns, [status] holds exactly the list returned and
    nothing was logged.  When it raises, the exception is a
    [ToolException], [status] holds its message, and one record was
    logged at level DEBUG. *)
Theorem tavily_search_status_and_log
    (self : TavilySearch.TavilySearchToolComponent) (query : string)
    (d : TavilySearchDepth) (t : TavilySearchTopic) (max_results : Z)
    (include_images include_answer : bool) (s : state) :
  match TavilySearch._tavily_search self query (VDepth d) (VTopic t)
          max_results include_images include_answer s with
  | (Return records, s') => status s' = StatusData records /\ log s' = log s
  | (Raise e, s') =>
      exists m logged,
        e = ToolException m /\
        status s' = StatusText m /\
        log s' = (log s ++ [("DEBUG", logged)])%list
  end.
Proof.
  unfold TavilySearch._tavily_search, try_except, try_except_else.
  pose proof (tavily_search_try_state self query d t max_results
                include_images include_answer s) as Hstate.
  destruct (TavilySearch._tavily_search_try self query d t max_results
              include_images include_answer s) as [[records | e] s1];
    subst s1.
  - split; reflexivity.
  - destruct e; simpl; eexists; eexists; repeat split; reflexivity.
Qed.

(** X4.  Whatever its arguments, [_tavily_search] lets out only two kinds
    of exception: a [TypeError], exactly when [search_depth] or [topic] is
    not a member of its enumeration, and a [ToolException] otherwise. *)
Theorem tavily_search_raises_type_error_or_tool_exception
    (self : TavilySearch.TavilySearchToolComponent) (query : string)
    (v w : pyval) (max_results : Z) (include_images include_answer : bool)
    (s : state) (e : exn) :
  fst (TavilySearch._tavily_search self query v w max_results include_images
         include_answer s) = Raise e ->
  (exists m, e = TypeError m /\
             (Spec.is_depth v = false \/ Spec.is_topic w = false)) \/
  (exists m, e = ToolException m /\
             Spec.is_depth v = true /\ Spec.is_topic w = true).
Proof.
  intros Hraise.
  destruct (Spec.is_depth v) eqn:Hv.
  - destruct (Spec.is_topic w) eqn:Hw.
    + right. destruct v; try discriminate. destruct w; try discriminate.
      destruct (tavily_search_raises_only_tool_exception self query d t
                  max_results include_images include_answer s e Hraise)
        as [m Hm].
      now exists m.
    + left. rewrite (tavily_search_rejects_topic self query v w max_results
                       include_images include_answer s Hv Hw) in Hraise.
      inversion Hraise. eexists. split; [reflexivity | now right].
  - left. rewrite (tavily_search_rejects_depth self query v w max_results
                     include_images include_answer s Hv) in Hraise.
    inversion Hraise. eexists. split; [reflexivity | now left].
Qed.

Lemma tavily_search_raises_type_error_or_tool_exception_witness :
  fst (TavilySearch._tavily_search
         (Spec.sample_tool (VDepth BASIC) (VTopic NEWS)) "q"
         (VDepth BASIC) (VStr "news") 5 false false
         (Spec.answered Spec.sample_response))
  = Raise (TypeError "Tópico de busca inválido: news") /\
  ((exists m, TypeError "Tópico de busca inválido: news" = TypeError m /\
              (Spec.is_depth (VDepth BASIC) = false \/
               Spec.is_topic (VStr "news") = false)) \/
   (exists m, TypeError "Tópico de busca inválido: news" = ToolException m /\
              Spec.is_depth (VDepth BASIC) = true /\
              Spec.is_topic (VStr "news") = true)).
Proof.
  split; [reflexivity |].
  apply (tavily_search_raises_type_error_or_tool_exception
           (Spec.sample_tool (VDepth BASIC) (VTopic NEWS)) "q"
           (VDepth BASIC) (VStr "news") 5 false false
           (Spec.answered Spec.sample_response)).
  reflexivity.
Defined.

(** X5.  [run_model] lets out no exception but [ToolException]: a dropdown
    value that names no member is answered with an error record, and the
    type checks of [_tavily_search] cannot fail on the members that
    [run_model] passes. *)
Theorem run_model_raises_only_tool_exception
    (self : TavilySearch.TavilySearchToolComponent) (s : state) (e : exn) :
  fst (TavilySearch.run_model self s) = Raise e ->
  exists m, e = ToolException m.
Proof.
  rewrite run_model_run.
  destruct (Spec.depth_named (TavilySearch.search_depth self)) as [d | e1];
    [| discriminate].
  destruct (Spec.topic_named (TavilySearch.topic self)) as [t | e1];
    [| discriminate].
  apply tavily_search_raises_only_tool_exception.
Qed.

Lemma run_model_raises_only_tool_exception_witness :
  fst (TavilySearch.run_model (Spec.sample_tool (VStr "basic") (VStr "news"))
         (Spec.answered Spec.array_response))
  = Raise (ToolException
             "Erro inesperado: 'list' object has no attribute 'get'") /\
  exists m,
    ToolException "Erro inesperado: 'list' object has no attribute 'get'"
    = ToolException m.
Proof.
  split; [reflexivity |].
  apply (run_model_raises_only_tool_exception
           (Spec.sample_tool (VStr "basic") (VStr "news"))
           (Spec.answered Spec.array_response)).
  reflexivity.
Defined.

(** X6.  [run_model] sends exactly one request when both dropdowns name a
    member, carrying the values of the members named, and none when one
    of them does not; it never sends a second one. *)
Theorem run_model_sends_at_most_once
    (self : TavilySearch.TavilySearchToolComponent) (s : state) :
  sent (snd (TavilySearch.run_model self s))
  = (sent s
     ++ match Spec.depth_named (TavilySearch.search_depth self),
              Spec.topic_named (TavilySearch.topic self) with
        | Return d, Return t =>
            [ {| url := "https://api.tavily.com/search";
                 json := [("api_key", VStr (TavilySearch.api_key self));
                          ("query", VStr (TavilySearch.query self));
                          ("search_depth", VStr (depth_value d));
                          ("topic", VStr (topic_value t));
                          ("max_results", VInt (TavilySearch.max_results self));
                          ("include_images",
                           VBool (TavilySearch.include_images self));
                          ("include_answer",
                           VBool (TavilySearch.include_answer self))];
                 headers := [("content-type", "application/json");
                             ("accept", "application/json")] |} ]
        | _, _ => []
        end)%list.
Proof.
  rewrite run_model_run.
  destruct (Spec.depth_named (TavilySearch.search_depth self)) as [d | e1];
    [| simpl; now rewrite app_nil_r].
  destruct (Spec.topic_named (TavilySearch.topic self)) as [t | e1];
    [| simpl; now rewrite app_nil_r].
  apply (sends_tavily_search self (TavilySearch.query self) d t
           (TavilySearch.max_results self) (TavilySearch.include_images self)
           (TavilySearch.include_answer self) s).
Qed.

(** ** Dropdown values and enumeration members *)

Lemma lower_char_idempotent (c : ascii) :
  lower_char (lower_char c) = lower_char c.
Proof.
  destruct c as [b0 b1 b2 b3 b4 b5 b6 b7].
  destruct b0, b1, b2, b3, b4, b5, b6, b7; reflexivity.
Qed.

Lemma lower_idempotent (s : string) : lower (lower s) = lower s.
Proof.
  induction s as [| c s IH]; simpl; [reflexivity |].
  now rewrite lower_char_idempotent, IH.
Qed.

(** X7.  Looking a member up by value inverts [.value]: the lookup of a
    string returns a member exactly when the string is that member's
    value, for [TavilySearchDepth] and for [TavilySearchTopic]; every
    other string raises. *)
Theorem enum_lookup_inverts_value (value : string) (d : TavilySearchDepth)
    (t : TavilySearchTopic) :
  (TavilySearch.TavilySearchDepth_of value = Return d <->
   value = depth_value d) /\
  (TavilySearch.TavilySearchTopic_of value = Return t <->
   value = topic_value t).
Proof.
  split; split.
  - unfold TavilySearch.TavilySearchDepth_of.
    destruct (String.eqb value "basic") eqn:Hb.
    + apply String.eqb_eq in Hb. intros H. inversion H. exact Hb.
    + destruct (String.eqb value "advanced") eqn:Ha; [| discriminate].
      apply String.eqb_eq in Ha. intros H. inversion H. exact Ha.
  - intros ->. now destruct d.
  - unfold TavilySearch.TavilySearchTopic_of.
    destruct (String.eqb value "general") eqn:Hg.
    + apply String.eqb_eq in Hg. intros H. inversion H. exact Hg.
    + destruct (String.eqb value "news") eqn:Hn; [| discriminate].
      apply String.eqb_eq in Hn. intros H. inversion H. exact Hn.
  - intros ->. now destruct t.
Qed.

(** X8.  [run_model] reads its two dropdowns only through the members they
    name: when [search_depth] names the member [d] and [topic] the member
    [t], be it as the member itself or as a string spelling its value in
    any letter case, the call comes to the same result and the same state
    as with [d] and [t] in the dropdowns. *)
Theorem run_model_reads_dropdowns_by_member
    (self : TavilySearch.TavilySearchToolComponent) (s : state)
    (d : TavilySearchDepth) (t : TavilySearchTopic) :
  Spec.depth_named (TavilySearch.search_depth self) = Return d ->
  Spec.topic_named (TavilySearch.topic self) = Return t ->
  TavilySearch.run_model self s
  = TavilySearch.run_model (Spec.with_dropdowns self (VDepth d) (VTopic t)) s.
Proof.
  intros Hd Ht. rewrite !run_model_run. simpl. now rewrite Hd, Ht.
Qed.

Lemma run_model_reads_dropdowns_by_member_witness :
  Spec.depth_named (VStr "ADVANCED") = Return ADVANCED /\
  Spec.topic_named (VStr "News") = Return NEWS /\
  TavilySearch.run_model (Spec.sample_tool (VStr "ADVANCED") (VStr "News"))
    (Spec.answered Spec.sample_response)
  = TavilySearch.run_model
      (Spec.with_dropdowns (Spec.sample_tool (VStr "ADVANCED") (VStr "News"))
         (VDepth ADVANCED) (VTopic NEWS))
      (Spec.answered Spec.sample_response).
Proof.
  split; [reflexivity |]. split; [reflexivity |].
  apply (run_model_reads_dropdowns_by_member
           (Spec.sample_tool (VStr "ADVANCED") (VStr "News"))
           (Spec.answered Spec.sample_response) ADVANCED NEWS);
    reflexivity.
Defined.

(** X9.  [run_model] ignores the letter case of dropdown strings: with the
    strings lower-cased beforehand the call comes to the same result and
    the same state, error messages included. *)
Theorem run_model_ignores_case
    (self : TavilySearch.TavilySearchToolComponent) (depth tp : string)
    (s : state) :
  TavilySearch.run_model (Spec.with_dropdowns self (VStr depth) (VStr tp)) s
  = TavilySearch.run_model
      (Spec.with_dropdowns self (VStr (lower depth)) (VStr (lower tp))) s.
Proof.
  rewrite !run_model_run.
  cbn [Spec.with_dropdowns TavilySearch.search_depth TavilySearch.topic
       TavilySearch.api_key TavilySearch.query TavilySearch.max_results
       TavilySearch.include_images TavilySearch.include_answer
       Spec.depth_named Spec.topic_named str].
  now rewrite !lower_idempotent.
Qed.

(** ** Lists returned by successful searches *)

Lemma included_none (flag : bool) (body : dict) (k : string) :
  flag = false \/ truthy (Spec.field body k VNone) = false ->
  Spec.included flag body k = None.
Proof.
  unfold Spec.included, Spec.field. intros [-> | Hfalsy]; [reflexivity |].
  destruct flag; [| reflexivity].
  destruct (dict_get body k) as [v |]; [| reflexivity].
  now rewrite Hfalsy.
Qed.

(** X10.  An extra whose flag is off, or whose value in the response is
    missing or empty, leaves no trace: when that holds of both the answer
    and the images, [fetch_content] on a well-formed 2xx response returns
    exactly one record per entry of ['results'], in order, each with the
    entry's content for text, and [_tavily_search] exactly its own record
    per entry, even if the response carries an answer and images. *)
Theorem no_extras_gives_entry_records_only
    (self : Tavily.TavilySearchComponent)
    (tool : TavilySearch.TavilySearchToolComponent) (query : string)
    (d : TavilySearchDepth) (t : TavilySearchTopic) (max_results : Z)
    (s : state) (r : response) (body : dict) (entries : list dict) :
  (forall req, network s (sent s) req = PostResponds r) ->
  is_success r = true ->
  json_body r = inr (VDict body) ->
  Spec.results_entries body = Some entries ->
  Tavily.include_answer self = false \/
  truthy (Spec.field body "answer" VNone) = false ->
  Tavily.include_images self = false \/
  truthy (Spec.field body "images" VNone) = false ->
  fst (Tavily.fetch_content self s)
  = Return
      (map (fun entry =>
              {| text := Some (Spec.field entry "content" (VStr EmptyString));
                 data := [("title", Spec.field entry "title" VNone);
                          ("url", Spec.field entry "url" VNone);
                          ("content",
                           Spec.field entry "content" (VStr EmptyString));
                          ("score", Spec.field entry "score" VNone)] |})
         entries) /\
  fst (TavilySearch._tavily_search tool query (VDepth d) (VTopic t)
         max_results (Tavily.include_images self)
         (Tavily.include_answer self) s)
  = Return
      (map (fun entry =>
              {| text := None;
                 data := [("title", Spec.field entry "title" VNone);
                          ("url", Spec.field entry "url" VNone);
                          ("content", Spec.field entry "content" VNone);
                          ("score", Spec.field entry "score" VNone)] |})
         entries).
Proof.
  intros Hnet Hok Hjson Hshape Hanswer Himages. split.
  - rewrite (fetch_content_success self s r body entries
               (Hnet _) Hok Hjson Hshape).
    unfold Spec.fetch_content_records.
    rewrite (included_none _ _ _ Hanswer), (included_none _ _ _ Himages).
    simpl. now rewrite app_nil_r.
  - rewrite (tavily_search_success tool query d t max_results _ _ s r body
               entries (Hnet _) Hok Hjson Hshape).
    unfold Spec.tavily_search_records.
    rewrite (included_none _ _ _ Hanswer), (included_none _ _ _ Himages).
    simpl. now rewrite app_nil_r.
Qed.

Lemma no_extras_gives_entry_records_only_witness :
  (forall req,
      network (Spec.answered Spec.sample_response)
        (sent (Spec.answered Spec.sample_response)) req
      = PostResponds Spec.sample_response) /\
  is_success Spec.sample_response = true /\
  json_body Spec.sample_response = inr (VDict Spec.sample_body) /\
  Spec.results_entries Spec.sample_body = Some Spec.sample_entries /\
  (Tavily.include_answer Spec.plain_component = false \/
   truthy (Spec.field Spec.sample_body "answer" VNone) = false) /\
  (Tavily.include_images Spec.plain_component = false \/
   truthy (Spec.field Spec.sample_body "images" VNone) = false) /\
  fst (Tavily.fetch_content Spec.plain_component
         (Spec.answered Spec.sample_response))
  = Return
      (map (fun entry =>
              {| text := Some (Spec.field entry "content" (VStr EmptyString));
                 data := [("title", Spec.field entry "title" VNone);
                          ("url", Spec.field entry "url" VNone);
                          ("content",
                           Spec.field entry "content" (VStr EmptyString));
                          ("score", Spec.field entry "score" VNone)] |})
         Spec.sample_entries) /\
  fst (TavilySearch._tavily_search
         (Spec.sample_tool (VDepth BASIC) (VTopic GENERAL)) "q"
         (VDepth BASIC) (VTopic GENERAL) 3
         (Tavily.include_images Spec.plain_component)
         (Tavily.include_answer Spec.plain_component)
         (Spec.answered Spec.sample_response))
  = Return
      (map (fun entry =>
              {| text := None;
                 data := [("title", Spec.field entry "title" VNone);
                          ("url", Spec.field entry "url" VNone);
                          ("content", Spec.field entry "content" VNone);
                          ("score", Spec.field entry "score" VNone)] |})
         Spec.sample_entries).
Proof.
  split; [reflexivity |]. split; [reflexivity |]. split; [reflexivity |].
  split; [reflexivity |]. split; [now left |]. split; [now left |].
  apply (no_extras_gives_entry_records_only Spec.plain_component
           (Spec.sample_tool (VDepth BASIC) (VTopic GENERAL)) "q"
           BASIC GENERAL 3 (Spec.answered Spec.sample_response)
           Spec.sample_response Spec.sample_body Spec.sample_entries);
    try reflexivity; now left.
Defined.

Lemma extras_agree (flag : bool) (body : dict) (k : string)
    (mk mk' : pyval -> Data) :
  (forall v, Spec.agree_on "title" (mk v) (mk' v) /\
             Spec.agree_on "url" (mk v) (mk' v) /\
             Spec.agree_on "score" (mk v) (mk' v)) ->
  Forall2 (fun a b => Spec.agree_on "title" a b /\ Spec.agree_on "url" a b /\
                      Spec.agree_on "score" a b)
    (Spec.extra mk (Spec.included flag body k))
    (Spec.extra mk' (Spec.included flag body k)).
Proof.
  intros Hmk. destruct (Spec.included flag body k) as [v |]; simpl;
    [constructor; [apply Hmk | constructor] | constructor].
Qed.

Lemma entry_records_agree (entries : list dict) :
  Forall2 (fun a b => Spec.agree_on "title" a b /\ Spec.agree_on "url" a b /\
                      Spec.agree_on "score" a b)
    (map Spec.entry_record entries) (map Spec.tool_entry_record entries).
Proof.
  induction entries as [| entry entries IH]; simpl; constructor; auto.
  repeat split.
Qed.

(** X11.  The two Tavily components agree on a well-formed 2xx response:
    with the same flags, [fetch_content] and [_tavily_search] return lists
    of the same length whose records, position by position, hold the same
    [title], [url] and [score] (or both none). *)
Theorem components_agree_on_results
    (self : Tavily.TavilySearchComponent)
    (tool : TavilySearch.TavilySearchToolComponent) (query : string)
    (d : TavilySearchDepth) (t : TavilySearchTopic) (max_results : Z)
    (s : state) (r : response) (body : dict) (entries : list dict) :
  (forall req, network s (sent s) req = PostResponds r) ->
  is_success r = true ->
  json_body r = inr (VDict body) ->
  Spec.results_entries body = Some entries ->
  exists records tool_records,
    fst (Tavily.fetch_content self s) = Return records /\
    fst (TavilySearch._tavily_search tool query (VDepth d) (VTopic t)
           max_results (Tavily.include_images self)
           (Tavily.include_answer self) s)
    = Return tool_records /\
    length records = length tool_records /\
    Forall2 (fun a b =>
               dict_get (data a) "title" = dict_get (data b) "title" /\
               dict_get (data a) "url" = dict_get (data b) "url" /\
               dict_get (data a) "score" = dict_get (data b) "score")
      records tool_records.
Proof.
  intros Hnet Hok Hjson Hshape.
  rewrite (fetch_content_success self s r body entries
             (Hnet _) Hok Hjson Hshape).
  rewrite (tavily_search_success tool query d t max_results _ _ s r body
             entries (Hnet _) Hok Hjson Hshape).
  do 2 eexists. split; [reflexivity |]. split; [reflexivity |].
  assert (Forall2 (fun a b => Spec.agree_on "title" a b /\
                              Spec.agree_on "url" a b /\
                              Spec.agree_on "score" a b)
            (Spec.fetch_content_records self body entries)
            (Spec.tavily_search_records (Tavily.include_images self)
               (Tavily.include_answer self) body entries)) as Hall.
  { unfold Spec.fetch_content_records, Spec.tavily_search_records.
    repeat apply Forall2_app.
    - apply extras_agree. intros v. repeat split.
    - apply entry_records_agree.
    - apply extras_agree. intros v. repeat split. }
  split; [exact (Forall2_length Hall) | exact Hall].
Qed.

Lemma components_agree_on_results_witness :
  (forall req,
      network (Spec.answered Spec.sample_response)
        (sent (Spec.answered Spec.sample_response)) req
      = PostResponds Spec.sample_response) /\
  is_success Spec.sample_response = true /\
  json_body Spec.sample_response = inr (VDict Spec.sample_body) /\
  Spec.results_entries Spec.sample_body = Some Spec.sample_entries /\
  exists records tool_records,
    fst (Tavily.fetch_content Spec.sample_component
           (Spec.answered Spec.sample_response)) = Return records /\
    fst (TavilySearch._tavily_search
           (Spec.sample_tool (VDepth BASIC) (VTopic GENERAL)) "q"
           (VDepth BASIC) (VTopic GENERAL) 3
           (Tavily.include_images Spec.sample_component)
           (Tavily.include_answer Spec.sample_component)
           (Spec.answered Spec.sample_response))
    = Return tool_records /\
    length records = length tool_records /\
    Forall2 (fun a b =>
               dict_get (data a) "title" = dict_get (data b) "title" /\
               dict_get (data a) "url" = dict_get (data b) "url" /\
               dict_get (data a) "score" = dict_get (data b) "score")
      records tool_records.
Proof.
  split; [reflexivity |]. split; [reflexivity |]. split; [reflexivity |].
  split; [reflexivity |].
  apply (components_agree_on_results Spec.sample_component
           (Spec.sample_tool (VDepth BASIC) (VTopic GENERAL)) "q"
           BASIC GENERAL 3 (Spec.answered Spec.sample_response)
           Spec.sample_response Spec.sample_body Spec.sample_entries);
    reflexivity.
Defined.

(** ** [fetch_content_text] as a caller of [fetch_content] *)

Lemma sends_fetch_content_text (format_ext : string -> dict -> result string)
    (self : Tavily.TavilySearchComponent) :
  Spec.sends (Tavily.fetch_content_text format_ext self)
    [Tavily.search_request self].
Proof.
  unfold Tavily.fetch_content_text.
  apply sends_bind; [apply sends_fetch_content | quiet].
Qed.

(** X12.  When [fetch_content_text] returns a message, [status] holds the
    text of that message: the list that the inner [fetch_content] stored
    there is overwritten. *)
Theorem fetch_content_text_status
    (format_ext : string -> dict -> result string)
    (self : Tavily.TavilySearchComponent) (s : state) :
  match Tavily.fetch_content_text format_ext self s with
  | (Return message, s') => status s' = StatusText (message_text message)
  | (Raise _, _) => True
  end.
Proof.
  unfold Tavily.fetch_content_text, bind at 1.
  destruct (Tavily.fetch_content self s) as [[records | e] s1]; [| exact I].
  unfold bind at 1, lift at 1.
  destruct (data_to_text format_ext "{text}" records) as [rendering | e];
    [reflexivity | exact I].
Qed.

(** X13.  Each output method performs its own search:
    [fetch_content_text] sends exactly one request, the one
    [fetch_content] sends, and running [fetch_content] and then
    [fetch_content_text] sends that request twice. *)
Theorem each_output_sends_its_own_request
    (format_ext : string -> dict -> result string)
    (self : Tavily.TavilySearchComponent) (s : state) :
  let req := {| url := "https://api.tavily.com/search";
                json := Tavily.payload self;
                headers := [("content-type", "application/json");
                            ("accept", "application/json")] |} in
  sent (snd (Tavily.fetch_content_text format_ext self s))
  = (sent s ++ [req])%list /\
  sent (snd (Tavily.fetch_content_text format_ext self
               (snd (Tavily.fetch_content self s))))
  = (sent s ++ [req; req])%list.
Proof.
  cbv zeta. split.
  - apply (sends_fetch_content_text format_ext self s).
  - rewrite (sends_fetch_content_text format_ext self
               (snd (Tavily.fetch_content self s))).
    rewrite (sends_fetch_content self s).
    now rewrite <- app_assoc.
Qed.

(** ** Row dictionaries *)

Lemma dict_get_set_same {A : Type} (d : list (string * A)) (k : string)
    (v : A) :
  dict_get (dict_set d k v) k = Some v.
Proof.
  induction d as [| [k' v'] d IH]; simpl.
  - now rewrite String.eqb_refl.
  - destruct (String.eqb k' k) eqn:Hk; simpl; rewrite Hk; [reflexivity | exact IH].
Qed.

Lemma dict_get_set_other {A : Type} (d : list (string * A)) (k c : string)
    (v : A) :
  k <> c -> dict_get (dict_set d k v) c = dict_get d c.
Proof.
  intros Hne. induction d as [| [k' v'] d IH]; simpl.
  - apply String.eqb_neq in Hne. now rewrite Hne.
  - destruct (String.eqb k' k) eqn:Hk; simpl.
    + apply String.eqb_eq in Hk. subst k'.
      apply String.eqb_neq in Hne. now rewrite Hne.
    + destruct (String.eqb k' c); [reflexivity | exact IH].
Qed.

(** Cells stored under other names leave a name's entry as it is. *)
Lemma fold_dict_set_other (l : list (string * pyval)) (c : string) :
  ~ In c (map fst l) ->
  forall d,
    dict_get (fold_left (fun d kv => dict_set d (fst kv) (snd kv)) l d) c
    = dict_get d c.
Proof.
  induction l as [| [k v] l IH]; intros Hnot d; simpl; [reflexivity |].
  simpl in Hnot. rewrite IH by tauto.
  apply dict_get_set_other. tauto.
Qed.

Lemma combine_keys (cols : list string) (row : list pyval) (c : string) :
  In c (map fst (combine cols row)) -> In c cols.
Proof.
  revert row. induction cols as [| k cols IH]; intros [| x row] H;
    simpl in *; try contradiction.
  destruct H as [H | H]; [now left | right; exact (IH row H)].
Qed.

(** With distinct column names, the dictionary of a row holds under each
    name the cell in that column. *)
Lemma to_dict_cell (cols : list string) :
  NoDup cols ->
  forall (row : list pyval) (d : dict) (i : nat) (c : string) (v : pyval),
    nth_error cols i = Some c ->
    nth_error row i = Some v ->
    dict_get (fold_left (fun d kv => dict_set d (fst kv) (snd kv))
                (combine cols row) d) c = Some v.
Proof.
  induction 1 as [| k cols Hnotin Hnodup IH]; intros row d i c v Hc Hv.
  - destruct i; discriminate.
  - destruct row as [| x row]; [destruct i; discriminate |].
    destruct i as [| i]; simpl in *.
    + inversion Hc; inversion Hv; subst.
      rewrite fold_dict_set_other.
      * apply dict_get_set_same.
      * intros Hin. apply Hnotin. exact (combine_keys _ _ _ Hin).
    + exact (IH row _ i c v Hc Hv).
Qed.

Lemma to_dict_missing (cols : list string) (row : list pyval) (c : string) :
  ~ In c cols -> dict_get (ParseDataFrame.to_dict cols row) c = None.
Proof.
  intros Hnot. unfold ParseDataFrame.to_dict.
  rewrite fold_dict_set_other; [reflexivity |].
  intros Hin. apply Hnot. exact (combine_keys _ _ _ Hin).
Qed.

(** ** [parse_data] on particular frames and templates *)

Lemma or_default_some (t default : string) :
  t <> EmptyString -> ParseDataFrame.or_default (Some t) default = t.
Proof.
  intros Hne. unfold ParseDataFrame.or_default.
  apply String.eqb_neq in Hne. now rewrite Hne.
Qed.

Section ParseDataFurther.

Variable row_values :
  ParseDataFrame.DataFrame -> list pyval -> list pyval.

Variable format_ext : string -> dict -> result string.

Lemma format_text_missing (kwargs : dict) :
  dict_get kwargs "text" = None ->
  format format_ext "{text}" kwargs = Raise (KeyError "text").
Proof.
  intros Hget. unfold format. simpl. unfold str_of_char.
  now rewrite Hget.
Qed.

Lemma format_no_braces (t : string) (kwargs : dict) :
  Spec.no_braces t = true -> format format_ext t kwargs = Return t.
Proof.
  unfold format, Spec.no_braces.
  induction t as [| c t IH]; intros Hplain; [reflexivity |].
  cbn [contains_char] in Hplain.
  apply andb_prop in Hplain as [Hopen Hclose].
  apply negb_true_iff in Hopen, Hclose.
  apply orb_false_elim in Hopen as [Hc1 Hopen].
  apply orb_false_elim in Hclose as [Hc2 Hclose].
  cbn [format_scan].
  rewrite (Ascii.eqb_sym c "{"), Hc1, (Ascii.eqb_sym c "}"), Hc2.
  rewrite IH; [reflexivity |].
  now rewrite Hopen, Hclose.
Qed.

Lemma format_all_same (t : string) (rows : list dict) :
  (forall row, format format_ext t row = Return t) ->
  format_all format_ext t rows = Return (repeat t (length rows)).
Proof.
  intros Hrow. induction rows as [| row rows IH]; simpl; [reflexivity |].
  now rewrite Hrow, IH.
Qed.

(** X14.  On a DataFrame without rows [parse_data] returns the empty
    message and stores the empty text in [status], whatever the template
    and the separator: the template is never formatted, so even a
    malformed one raises nothing. *)
Theorem parse_data_without_rows (cols : list string)
    (template sep : option string) (s : state) :
  ParseDataFrame.parse_data row_values format_ext
    {| ParseDataFrame.df := {| ParseDataFrame.columns := cols;
                               ParseDataFrame.rows := [] |};
       ParseDataFrame.template := template;
       ParseDataFrame.sep := sep |} s
  = (Return {| message_text := EmptyString |},
     {| status := StatusText EmptyString;
        log := log s; sent := sent s; network := network s |}).
Proof. rewrite (parse_data_run row_values format_ext). reflexivity. Qed.

(** X15.  With the template left unset and distinct column names, of
    which the [i]-th is [text], [parse_data] returns the [str] of the
    values that [iterrows] yields in that column, in row order, joined by
    the separator, provided each row comes with one value per column.
    These are the stored cells unless pandas coerces the row: an integer
    [text] cell beside a float column is shown as a float. *)
Theorem parse_data_default_shows_text_column
    (dataframe : ParseDataFrame.DataFrame) (sep : option string)
    (i : nat) (s : state) :
  NoDup (ParseDataFrame.columns dataframe) ->
  nth_error (ParseDataFrame.columns dataframe) i = Some "text" ->
  Forall (fun row => length (row_values dataframe row)
                     = length (ParseDataFrame.columns dataframe))
    (ParseDataFrame.rows dataframe) ->
  fst (ParseDataFrame.parse_data row_values format_ext
         {| ParseDataFrame.df := dataframe;
            ParseDataFrame.template := None;
            ParseDataFrame.sep := sep |} s)
  = Return {| message_text :=
                String.concat
                  (ParseDataFrame.or_default sep ParseDataFrame.newline)
                  (map (fun row => str (nth i (row_values dataframe row) VNone))
                     (ParseDataFrame.rows dataframe)) |}.
Proof.
  intros Hnodup Hcol Hrows. rewrite (parse_data_run row_values format_ext).
  cbn [ParseDataFrame.df ParseDataFrame.template ParseDataFrame.sep
       ParseDataFrame.or_default].
  unfold ParseDataFrame.iterrows.
  assert (format_all format_ext "{text}"
            (map (ParseDataFrame.to_dict (ParseDataFrame.columns dataframe))
               (map (row_values dataframe) (ParseDataFrame.rows dataframe)))
          = Return (map (fun row => str (nth i (row_values dataframe row) VNone))
                      (ParseDataFrame.rows dataframe))) as ->;
    [| reflexivity].
  induction Hrows as [| row rows Hlen _ IH]; [reflexivity |].
  cbn [map format_all].
  assert (nth_error (row_values dataframe row) i
          = Some (nth i (row_values dataframe row) VNone)) as Hcell.
  { apply nth_error_nth'. rewrite Hlen.
    apply nth_error_Some. now rewrite Hcol. }
  rewrite (format_text_field format_ext _
             (nth i (row_values dataframe row) VNone)).
  - now rewrite IH.
  - exact (to_dict_cell _ Hnodup (row_values dataframe row) [] i "text" _
             Hcol Hcell).
Qed.

(** X16.  With the template left unset, a DataFrame that has rows but no
    column named [text] makes [parse_data] raise [KeyError('text')]; the
    state, [status] included, stays as it was. *)
Theorem parse_data_default_needs_text_column
    (dataframe : ParseDataFrame.DataFrame) (sep : option string) (s : state) :
  ~ In "text" (ParseDataFrame.columns dataframe) ->
  ParseDataFrame.rows dataframe <> [] ->
  ParseDataFrame.parse_data row_values format_ext
    {| ParseDataFrame.df := dataframe;
       ParseDataFrame.template := None;
       ParseDataFrame.sep := sep |} s
  = (Raise (KeyError "text"), s).
Proof.
  intros Hnot Hrows. rewrite (parse_data_run row_values format_ext).
  cbn [ParseDataFrame.df ParseDataFrame.template ParseDataFrame.sep
       ParseDataFrame.or_default].
  unfold ParseDataFrame.iterrows.
  destruct (ParseDataFrame.rows dataframe) as [| row rows];
    [contradiction |].
  cbn [map format_all].
  now rewrite (format_text_missing _ (to_dict_missing _ _ "text" Hnot)).
Qed.

(** X17.  A template without braces is copied once per row: for a
    non-empty template in which neither brace occurs, [parse_data]
    returns as many copies of the template as the DataFrame has rows,
    joined by the separator, whatever the cells hold. *)
Theorem parse_data_literal_template
    (dataframe : ParseDataFrame.DataFrame) (template : string)
    (sep : option string) (s : state) :
  template <> EmptyString ->
  Spec.no_braces template = true ->
  fst (ParseDataFrame.parse_data row_values format_ext
         {| ParseDataFrame.df := dataframe;
            ParseDataFrame.template := Some template;
            ParseDataFrame.sep := sep |} s)
  = Return {| message_text :=
                String.concat
                  (ParseDataFrame.or_default sep ParseDataFrame.newline)
                  (repeat template
                     (length (ParseDataFrame.rows dataframe))) |}.
Proof.
  intros Hne Hplain. rewrite (parse_data_run row_values format_ext).
  cbn [ParseDataFrame.df ParseDataFrame.template ParseDataFrame.sep].
  rewrite (or_default_some template "{text}" Hne).
  rewrite format_all_same by (intros row; now apply format_no_braces).
  unfold ParseDataFrame.iterrows. now rewrite !length_map.
Qed.

End ParseDataFurther.

Lemma parse_data_default_shows_text_column_witness :
  NoDup (ParseDataFrame.columns Spec.text_frame) /\
  nth_error (ParseDataFrame.columns Spec.text_frame) 1 = Some "text" /\
  Forall (fun row => length (ParseDataFrame.as_stored Spec.text_frame row)
                     = length (ParseDataFrame.columns Spec.text_frame))
    (ParseDataFrame.rows Spec.text_frame) /\
  fst (ParseDataFrame.parse_data ParseDataFrame.as_stored plain_fields_only
         {| ParseDataFrame.df := Spec.text_frame;
            ParseDataFrame.template := None;
            ParseDataFrame.sep := Some " / " |}
         (Spec.answered Spec.sample_response))
  = Return {| message_text :=
                String.concat
                  (ParseDataFrame.or_default (Some " / ")
                     ParseDataFrame.newline)
                  (map (fun row =>
                          str (nth 1 (ParseDataFrame.as_stored
                                        Spec.text_frame row) VNone))
                     (ParseDataFrame.rows Spec.text_frame)) |}.
Proof.
  assert (NoDup (ParseDataFrame.columns Spec.text_frame)) as Hnodup.
  { constructor; [simpl; intros [H | []]; discriminate |].
    constructor; [intros [] | constructor]. }
  assert (Forall (fun row =>
                    length (ParseDataFrame.as_stored Spec.text_frame row)
                    = length (ParseDataFrame.columns Spec.text_frame))
            (ParseDataFrame.rows Spec.text_frame)) as Hrows.
  { repeat constructor. }
  split; [exact Hnodup |]. split; [reflexivity |]. split; [exact Hrows |].
  exact (parse_data_default_shows_text_column ParseDataFrame.as_stored
           plain_fields_only
           Spec.text_frame (Some " / ") 1
           (Spec.answered Spec.sample_response) Hnodup eq_refl Hrows).
Defined.

Lemma parse_data_default_needs_text_column_witness :
  ~ In "text" (ParseDataFrame.columns Spec.sample_frame) /\
  ParseDataFrame.rows Spec.sample_frame <> [] /\
  ParseDataFrame.parse_data ParseDataFrame.as_stored plain_fields_only
    {| ParseDataFrame.df := Spec.sample_frame;
       ParseDataFrame.template := None;
       ParseDataFrame.sep := None |}
    (Spec.answered Spec.sample_response)
  = (Raise (KeyError "text"), Spec.answered Spec.sample_response).
Proof.
  assert (~ In "text" (ParseDataFrame.columns Spec.sample_frame)) as Hnot.
  { simpl. intros [H | [H | []]]; discriminate. }
  assert (ParseDataFrame.rows Spec.sample_frame <> []) as Hrows.
  { discriminate. }
  split; [exact Hnot |]. split; [exact Hrows |].
  exact (parse_data_default_needs_text_column ParseDataFrame.as_stored
           plain_fields_only
           Spec.sample_frame None (Spec.answered Spec.sample_response)
           Hnot Hrows).
Defined.

Lemma parse_data_literal_template_witness :
  "sem dados" <> EmptyString /\
  Spec.no_braces "sem dados" = true /\
  fst (ParseDataFrame.parse_data ParseDataFrame.as_stored plain_fields_only
         {| ParseDataFrame.df := Spec.sample_frame;
            ParseDataFrame.template := Some "sem dados";
            ParseDataFrame.sep := Some "; " |}
         (Spec.answered Spec.sample_response))
  = Return {| message_text :=
                String.concat
                  (ParseDataFrame.or_default (Some "; ")
                     ParseDataFrame.newline)
                  (repeat "sem dados"
                     (length (ParseDataFrame.rows Spec.sample_frame))) |}.
Proof.
  assert ("sem dados" <> EmptyString) as Hne by discriminate.
  split; [exact Hne |]. split; [reflexivity |].
  exact (parse_data_literal_template ParseDataFrame.as_stored
           plain_fields_only Spec.sample_frame
           "sem dados" (Some "; ") (Spec.answered Spec.sample_response)
           Hne eq_refl).
Defined.

(** ** [parse_data] on rows put together *)

Lemma string_app_assoc (x y z : string) : (x ++ y) ++ z = x ++ y ++ z.
Proof. induction x as [| c x IH]; simpl; [reflexivity | now rewrite IH]. Qed.

Lemma concat_app (sep : string) (l1 l2 : list string) :
  l1 <> [] -> l2 <> [] ->
  String.concat sep (l1 ++ l2)
  = String.concat sep l1 ++ sep ++ String.concat sep l2.
Proof.
  intros H1 H2. induction l1 as [| x l1 IH]; [contradiction |].
  destruct l1 as [| y l1].
  - destruct l2 as [| z l2]; [contradiction | reflexivity].
  - change (String.concat sep ((x :: y :: l1) ++ l2))
      with (x ++ sep ++ String.concat sep ((y :: l1) ++ l2)).
    rewrite IH by discriminate.
    change (String.concat sep (x :: y :: l1))
      with (x ++ sep ++ String.concat sep (y :: l1)).
    now rewrite !string_app_assoc.
Qed.

Section ParseDataRows.

Variable row_values :
  ParseDataFrame.DataFrame -> list pyval -> list pyval.

Variable format_ext : string -> dict -> result string.

Lemma format_all_app (t : string) (rows1 rows2 : list dict)
    (lines1 lines2 : list string) :
  format_all format_ext t rows1 = Return lines1 ->
  format_all format_ext t rows2 = Return lines2 ->
  format_all format_ext t (rows1 ++ rows2) = Return (lines1 ++ lines2)%list.
Proof.
  revert lines1. induction rows1 as [| row rows1 IH]; intros lines1 H1 H2.
  - inversion H1. exact H2.
  - simpl in *. destruct (format format_ext t row) as [line | e];
      [| discriminate].
    destruct (format_all format_ext t rows1) as [rest | e]; [| discriminate].
    inversion H1; subst. now rewrite (IH rest eq_refl H2).
Qed.

Lemma format_all_length (t : string) (rows : list dict)
    (lines : list string) :
  format_all format_ext t rows = Return lines -> length lines = length rows.
Proof.
  revert lines. induction rows as [| row rows IH]; intros lines H; simpl in H.
  - now inversion H.
  - destruct (format format_ext t row) as [line | e]; [| discriminate].
    destruct (format_all format_ext t rows) as [rest | e]; [| discriminate].
    inversion H; subst. simpl. now rewrite (IH rest eq_refl).
Qed.

(** X18.  [parse_data] on rows put one after the other, when putting them
    together changes no value: if [iterrows] yields every row of the
    joint DataFrame with the values it has in its part (as when the parts
    and the whole have the same column dtypes), and [parse_data] returns
    the text [a] for the rows [rows1] and the text [b] for the rows
    [rows2] (same columns, template and separator, neither without rows),
    then it returns [a], the separator, then [b] for [rows1] followed by
    [rows2].  Without the condition it fails: an integer row joined to a
    float row is shown as a float. *)
Theorem parse_data_appends_rows (cols : list string)
    (rows1 rows2 : list (list pyval)) (template sep : option string)
    (s : state) (a b : string) :
  let frame rows :=
    {| ParseDataFrame.columns := cols; ParseDataFrame.rows := rows |} in
  let parse rows :=
    fst (ParseDataFrame.parse_data row_values format_ext
           {| ParseDataFrame.df := frame rows;
              ParseDataFrame.template := template;
              ParseDataFrame.sep := sep |} s) in
  rows1 <> [] ->
  rows2 <> [] ->
  (forall row, In row rows1 ->
     row_values (frame (rows1 ++ rows2)%list) row
     = row_values (frame rows1) row) ->
  (forall row, In row rows2 ->
     row_values (frame (rows1 ++ rows2)%list) row
     = row_values (frame rows2) row) ->
  parse rows1 = Return {| message_text := a |} ->
  parse rows2 = Return {| message_text := b |} ->
  parse (rows1 ++ rows2)%list
  = Return {| message_text :=
                a ++ ParseDataFrame.or_default sep ParseDataFrame.newline
                  ++ b |}.
Proof.
  cbv beta zeta. intros Hne1 Hne2 Hsame1 Hsame2.
  rewrite !(parse_data_run row_values format_ext).
  cbn [ParseDataFrame.df ParseDataFrame.template ParseDataFrame.sep
       ParseDataFrame.columns ParseDataFrame.rows].
  unfold ParseDataFrame.iterrows.
  cbn [ParseDataFrame.columns ParseDataFrame.rows].
  rewrite (map_app (row_values _) rows1 rows2).
  rewrite (map_ext_in _ _ rows1 Hsame1), (map_ext_in _ _ rows2 Hsame2).
  rewrite map_app.
  destruct (format_all format_ext _ (map _ (map _ rows1)))
    as [lines1 | e] eqn:H1; [| discriminate].
  destruct (format_all format_ext _ (map _ (map _ rows2)))
    as [lines2 | e] eqn:H2; [| discriminate].
  cbn [fst]. intros Ha Hb. inversion Ha. inversion Hb.
  rewrite (format_all_app _ _ _ _ _ H1 H2). cbn [fst].
  rewrite concat_app; [reflexivity | |].
  - apply format_all_length in H1. rewrite !length_map in H1.
    destruct lines1; [destruct rows1; [contradiction | discriminate] |
                      discriminate].
  - apply format_all_length in H2. rewrite !length_map in H2.
    destruct lines2; [destruct rows2; [contradiction | discriminate] |
                      discriminate].
Qed.

End ParseDataRows.

Lemma parse_data_appends_rows_witness :
  [[VStr "Ana"; VInt 31]] <> [] /\
  [[VStr "Rui"; VInt 27]] <> [] /\
  (forall row, In row [[VStr "Ana"; VInt 31]] ->
     ParseDataFrame.as_stored
       {| ParseDataFrame.columns := ["name"; "age"];
          ParseDataFrame.rows :=
            ([[VStr "Ana"; VInt 31]] ++ [[VStr "Rui"; VInt 27]])%list |} row
     = ParseDataFrame.as_stored
         {| ParseDataFrame.columns := ["name"; "age"];
            ParseDataFrame.rows := [[VStr "Ana"; VInt 31]] |} row) /\
  (forall row, In row [[VStr "Rui"; VInt 27]] ->
     ParseDataFrame.as_stored
       {| ParseDataFrame.columns := ["name"; "age"];
          ParseDataFrame.rows :=
            ([[VStr "Ana"; VInt 31]] ++ [[VStr "Rui"; VInt 27]])%list |} row
     = ParseDataFrame.as_stored
         {| ParseDataFrame.columns := ["name"; "age"];
            ParseDataFrame.rows := [[VStr "Rui"; VInt 27]] |} row) /\
  fst (ParseDataFrame.parse_data ParseDataFrame.as_stored plain_fields_only
         {| ParseDataFrame.df :=
              {| ParseDataFrame.columns := ["name"; "age"];
                 ParseDataFrame.rows := [[VStr "Ana"; VInt 31]] |};
            ParseDataFrame.template := Some "{name}: {age}";
            ParseDataFrame.sep := None |}
         (Spec.answered Spec.sample_response))
  = Return {| message_text := "Ana: 31" |} /\
  fst (ParseDataFrame.parse_data ParseDataFrame.as_stored plain_fields_only
         {| ParseDataFrame.df :=
              {| ParseDataFrame.columns := ["name"; "age"];
                 ParseDataFrame.rows := [[VStr "Rui"; VInt 27]] |};
            ParseDataFrame.template := Some "{name}: {age}";
            ParseDataFrame.sep := None |}
         (Spec.answered Spec.sample_response))
  = Return {| message_text := "Rui: 27" |} /\
  fst (ParseDataFrame.parse_data ParseDataFrame.as_stored plain_fields_only
         {| ParseDataFrame.df :=
              {| ParseDataFrame.columns := ["name"; "age"];
                 ParseDataFrame.rows :=
                   ([[VStr "Ana"; VInt 31]] ++ [[VStr "Rui"; VInt 27]])%list |};
            ParseDataFrame.template := Some "{name}: {age}";
            ParseDataFrame.sep := None |}
         (Spec.answered Spec.sample_response))
  = Return {| message_text :=
                "Ana: 31"
                  ++ ParseDataFrame.or_default None ParseDataFrame.newline
                  ++ "Rui: 27" |}.
Proof.
  assert ([[VStr "Ana"; VInt 31]] <> []) as H1 by discriminate.
  assert ([[VStr "Rui"; VInt 27]] <> []) as H2 by discriminate.
  split; [exact H1 |]. split; [exact H2 |].
  split; [reflexivity |]. split; [reflexivity |].
  split; [reflexivity |]. split; [reflexivity |].
  exact (parse_data_appends_rows ParseDataFrame.as_stored plain_fields_only
           ["name"; "age"]
           [[VStr "Ana"; VInt 31]] [[VStr "Rui"; VInt 27]]
           (Some "{name}: {age}") None (Spec.answered Spec.sample_response)
           "Ana: 31" "Rui: 27" H1 H2 (fun _ _ => eq_refl) (fun _ _ => eq_refl)
           eq_refl eq_refl).
Defined.

(** ** [run_model] and [fetch_content_text], end to end *)

(** X19.  [run_model] on a successful search: when its dropdowns name the
    members [d] and [t] and the POST is answered with a 2xx status and a
    JSON object whose ['results'] is absent or an array of objects, it
    returns the answer record, if included, the record of each entry in
    order, and the images record, if included, by the component's own
    flags, and stores that list in [status]. *)
Theorem run_model_returns_search_records
    (self : TavilySearch.TavilySearchToolComponent) (s : state)
    (d : TavilySearchDepth) (t : TavilySearchTopic)
    (r : response) (body : dict) (entries : list dict) :
  Spec.depth_named (TavilySearch.search_depth self) = Return d ->
  Spec.topic_named (TavilySearch.topic self) = Return t ->
  (forall req, network s (sent s) req = PostResponds r) ->
  is_success r = true ->
  json_body r = inr (VDict body) ->
  Spec.results_entries body = Some entries ->
  let records :=
    (Spec.extra (fun answer => {| text := None; data := [("answer", answer)] |})
       (Spec.included (TavilySearch.include_answer self) body "answer")
     ++ map (fun entry =>
               {| text := None;
                  data := [("title", Spec.field entry "title" VNone);
                           ("url", Spec.field entry "url" VNone);
                           ("content", Spec.field entry "content" VNone);
                           ("score", Spec.field entry "score" VNone)] |})
          entries
     ++ Spec.extra (fun images => {| text := None;
                                     data := [("images", images)] |})
          (Spec.included (TavilySearch.include_images self) body "images"))%list
  in
  fst (TavilySearch.run_model self s) = Return records /\
  status (snd (TavilySearch.run_model self s)) = StatusData records.
Proof.
  intros Hd Ht Hnet Hok Hjson Hshape. cbv zeta.
  rewrite run_model_run, Hd, Ht.
  rewrite (tavily_search_success self (TavilySearch.query self) d t
             (TavilySearch.max_results self) _ _ s r body entries
             (Hnet _) Hok Hjson Hshape).
  split; reflexivity.
Qed.

Lemma run_model_returns_search_records_witness :
  Spec.depth_named (VStr "Advanced") = Return ADVANCED /\
  Spec.topic_named (VTopic GENERAL) = Return GENERAL /\
  (forall req,
      network (Spec.answered Spec.sample_response)
        (sent (Spec.answered Spec.sample_response)) req
      = PostResponds Spec.sample_response) /\
  is_success Spec.sample_response = true /\
  json_body Spec.sample_response = inr (VDict Spec.sample_body) /\
  Spec.results_entries Spec.sample_body = Some Spec.sample_entries /\
  fst (TavilySearch.run_model
         (Spec.sample_tool (VStr "Advanced") (VTopic GENERAL))
         (Spec.answered Spec.sample_response))
  = Return
      [ {| text := None; data := [("answer", VStr "Lisboa")] |};
        {| text := None;
           data := [("title", VStr "Portugal");
                    ("url", VStr "https://pt.example");
                    ("content", VStr "Lisboa");
                    ("score", VFloat "0.98")] |};
        {| text := None;
           data := [("title", VStr "Capitais"); ("url", VNone);
                    ("content", VNone); ("score", VNone)] |};
        {| text := None;
           data := [("images", VList [VStr "https://img.example/1.png"])] |} ].
Proof.
  split; [reflexivity |]. split; [reflexivity |]. split; [reflexivity |].
  split; [reflexivity |]. split; [reflexivity |]. split; [reflexivity |].
  exact (proj1 (run_model_returns_search_records
                  (Spec.sample_tool (VStr "Advanced") (VTopic GENERAL))
                  (Spec.answered Spec.sample_response) ADVANCED GENERAL
                  Spec.sample_response Spec.sample_body Spec.sample_entries
                  eq_refl eq_refl (fun _ => eq_refl) eq_refl eq_refl eq_refl)).
Defined.

Lemma shown_text_entry_record (entry : dict) :
  Spec.shown_text (Spec.entry_record entry)
  = str (Spec.field entry "content" (VStr EmptyString)).
Proof. reflexivity. Qed.

Section TextOutput.

Variable format_ext : string -> dict -> result string.

(** X20.  The text output of a successful search, with [data_to_text]
    modelled as the template formatted per record and joined by
    newlines: for a 2xx response with a JSON object whose ['results'] is
    absent or an array of objects, [fetch_content_text] returns one line
    per record, namely the answer, if included, the content of each entry
    in order (an empty line for an entry without content), and the line
    ["Imagens encontradas"], if the images are included. *)
Theorem fetch_content_text_lines
    (self : Tavily.TavilySearchComponent) (s : state)
    (r : response) (body : dict) (entries : list dict) :
  (forall req, network s (sent s) req = PostResponds r) ->
  is_success r = true ->
  json_body r = inr (VDict body) ->
  Spec.results_entries body = Some entries ->
  fst (Tavily.fetch_content_text format_ext self s)
  = Return
      {| message_text :=
           String.concat (str_of_char "010"%char)
             (match Spec.included (Tavily.include_answer self) body "answer"
              with
              | Some answer => [str answer]
              | None => []
              end
              ++ map (fun entry =>
                        str (Spec.field entry "content" (VStr EmptyString)))
                   entries
              ++ match Spec.included (Tavily.include_images self) body
                         "images" with
                 | Some _ => ["Imagens encontradas"]
                 | None => []
                 end)%list |}.
Proof.
  intros Hnet Hok Hjson Hshape.
  unfold Tavily.fetch_content_text, bind at 1.
  rewrite (fetch_content_success self s r body entries
             (Hnet _) Hok Hjson Hshape).
  unfold bind at 1, lift at 1.
  rewrite data_to_text_shown_text.
  - unfold Spec.fetch_content_records. rewrite !map_app, map_map.
    destruct (Spec.included (Tavily.include_answer self) body "answer");
      destruct (Spec.included (Tavily.include_images self) body "images");
      reflexivity.
  - unfold Spec.fetch_content_records.
    apply Forall_app; split; [| apply Forall_app; split].
    + destruct (Spec.included (Tavily.include_answer self) body "answer");
        repeat constructor. now eexists.
    + apply Forall_forall. intros x Hx. apply in_map_iff in Hx as (e & <- & _).
      now eexists.
    + destruct (Spec.included (Tavily.include_images self) body "images");
        repeat constructor. now eexists.
Qed.

End TextOutput.

Lemma fetch_content_text_lines_witness :
  (forall req,
      network (Spec.answered Spec.sample_response)
        (sent (Spec.answered Spec.sample_response)) req
      = PostResponds Spec.sample_response) /\
  is_success Spec.sample_response = true /\
  json_body Spec.sample_response = inr (VDict Spec.sample_body) /\
  Spec.results_entries Spec.sample_body = Some Spec.sample_entries /\
  fst (Tavily.fetch_content_text plain_fields_only Spec.sample_component
         (Spec.answered Spec.sample_response))
  = Return
      {| message_text :=
           String.concat (str_of_char "010"%char)
             ["Lisboa"; "Lisboa"; EmptyString; "Imagens encontradas"] |}.
Proof.
  split; [reflexivity |]. split; [reflexivity |]. split; [reflexivity |].
  split; [reflexivity |].
  exact (fetch_content_text_lines plain_fields_only Spec.sample_component
           (Spec.answered Spec.sample_response) Spec.sample_response
           Spec.sample_body Spec.sample_entries
           (fun _ => eq_refl) eq_refl eq_refl eq_refl).
Defined.
